(** * badgecheck: the task reducer and the validation task handlers

    A shallow embedding of [badgecheck/reducers/tasks.py],
    [badgecheck/tasks/validation.py] and the task of
    [badgecheck/tasks/extensions.py].  Python dictionaries (tasks, actions,
    graph nodes, validator specs) are finite maps from strings to Python
    values; a call that can raise returns a [result]. *)

From Stdlib Require Import ZArith Ascii String List Bool Lia.
From stdpp Require Import gmap strings pretty list fin_maps.

Set Warnings "-register-all".

Local Open Scope Z_scope.
Local Open Scope string_scope.

(** ** Python values *)

(** The values a badge document and the task parameters hold: JSON values,
    and function objects (one validator returns one).  Numbers are integers;
    a dictionary nested in a value is an association list without repeated
    keys. *)
Inductive pyval : Type :=
| PNone
| PBool (b : bool)
| PInt (n : Z)
| PStr (s : string)
| PList (l : list pyval)
| PDict (d : list (string * pyval))
| PFunc (name : string).

Abbreviation pydict := (gmap string pyval).

Fixpoint assoc {A : Type} (k : string) (d : list (string * A)) : option A :=
  match d with
  | [] => None
  | (k', v) :: rest => if String.eqb k k' then Some v else assoc k rest
  end.

(** Python's [==].  [True == 1] and [False == 0] hold in Python, lists are
    compared element by element, dictionaries key by key. *)
Fixpoint py_eq (a b : pyval) {struct a} : bool :=
  match a, b with
  | PNone, PNone => true
  | PBool x, PBool y => Bool.eqb x y
  | PBool x, PInt y => Z.eqb (Z.b2z x) y
  | PInt x, PBool y => Z.eqb x (Z.b2z y)
  | PInt x, PInt y => Z.eqb x y
  | PStr x, PStr y => String.eqb x y
  | PList xs, PList ys =>
      (fix go (xs ys : list pyval) {struct xs} : bool :=
         match xs, ys with
         | [], [] => true
         | x :: xs', y :: ys' => py_eq x y && go xs' ys'
         | _, _ => false
         end) xs ys
  | PDict d, PDict e =>
      Nat.eqb (length d) (length e) &&
      (fix go (d : list (string * pyval)) {struct d} : bool :=
         match d with
         | [] => true
         | (k, v) :: d' =>
             match assoc k e with
             | Some w => py_eq v w
             | None => false
             end && go d'
         end) d
  | PFunc f, PFunc g => String.eqb f g
  | _, _ => false
  end.

(** Python's truth value of an object, as [if v], [not v] and [bool(v)]
    compute it. *)
Definition py_truthy (v : pyval) : bool :=
  match v with
  | PNone => false
  | PBool b => b
  | PInt n => negb (Z.eqb n 0)
  | PStr s => negb (String.eqb s "")
  | PList l => match l with [] => false | _ => true end
  | PDict d => match d with [] => false | _ => true end
  | PFunc _ => true
  end.

(** [isinstance(v, six.string_types)], [isinstance(v, bool)] and
    [isinstance(v, (list, tuple))]. *)
Definition is_string (v : pyval) : bool :=
  match v with PStr _ => true | _ => false end.

Definition is_bool (v : pyval) : bool :=
  match v with PBool _ => true | _ => false end.

Definition is_list (v : pyval) : bool :=
  match v with PList _ => true | _ => false end.

(** [v in l] for a list or tuple [l]. *)
Definition py_in (v : pyval) (l : list pyval) : bool :=
  existsb (py_eq v) l.

(** ** Exceptions *)

Inductive exn : Type :=
| KeyError
| IndexError
| TypeError
| ValueError
| NotImplementedError
| TaskPrerequisitesError
| ValidationError (message : string)
| JsonLdError.

Inductive result (A : Type) : Type :=
| Ok (a : A)
| Raise (e : exn).

Arguments Ok {A} a.
Arguments Raise {A} e.

#[global] Instance result_ret : MRet result := λ A a, Ok a.

#[global] Instance result_bind : MBind result := λ A B f m,
  match m with
  | Ok a => f a
  | Raise e => Raise e
  end.

(** ** Dictionary reads *)

(** [d.get(k)]: [None] when the key is absent. *)
Definition get (k : string) (d : pydict) : pyval :=
  default PNone (d !! k).

(** [d.get(k, dflt)]. *)
Definition get_or (k : string) (dflt : pyval) (d : pydict) : pyval :=
  default dflt (d !! k).

(** [d[k]] for a string key: [KeyError] when the key is absent. *)
Definition getitem (k : string) (d : pydict) : result pyval :=
  match d !! k with
  | Some v => Ok v
  | None => Raise KeyError
  end.

(** [d[k]] for a key that is any value.  A list or a dictionary is not
    hashable; the keys of [d] are strings, so any other key is absent. *)
Definition getitem_val (k : pyval) (d : pydict) : result pyval :=
  match k with
  | PStr s => getitem s d
  | PList _ | PDict _ => Raise TypeError
  | _ => Raise KeyError
  end.

(** [l[0]]. *)
Definition index0 {A : Type} (l : list A) : result A :=
  match l with
  | x :: _ => Ok x
  | [] => Raise IndexError
  end.

(** [v + k] for an integer [k]. *)
Definition py_add_int (v : pyval) (k : Z) : result pyval :=
  match v with
  | PInt n => Ok (PInt (n + k))
  | PBool b => Ok (PInt (Z.b2z b + k))
  | _ => Raise TypeError
  end.

(** ** Action types and task types *)

Module action_types.
(** Modelled from the spec: [badgecheck/actions/action_types.py] is not
    among the sources; each action type is the string of its own name. *)
Definition ADD_TASK : string := "ADD_TASK".
Definition RESOLVE_TASK : string := "RESOLVE_TASK".
Definition UPDATE_TASK : string := "UPDATE_TASK".
Definition PATCH_NODE : string := "PATCH_NODE".
End action_types.

Module task_types.
(** Modelled from the spec: [badgecheck/tasks/task_types.py] is not among
    the sources; each task kind of the closed set is the string of its own
    name. *)
Definition DETECT_AND_VALIDATE_NODE_CLASS : string := "DETECT_AND_VALIDATE_NODE_CLASS".
Definition VALIDATE_EXPECTED_NODE_CLASS : string := "VALIDATE_EXPECTED_NODE_CLASS".
Definition VALIDATE_PROPERTY : string := "VALIDATE_PROPERTY".
Definition VALIDATE_RDF_TYPE_PROPERTY : string := "VALIDATE_RDF_TYPE_PROPERTY".
Definition VALIDATE_EXTENSION_NODE : string := "VALIDATE_EXTENSION_NODE".
Definition FETCH_HTTP_NODE : string := "FETCH_HTTP_NODE".
Definition ASSERTION_VERIFICATION_DEPENDENCIES : string := "ASSERTION_VERIFICATION_DEPENDENCIES".
Definition ASSERTION_TIMESTAMP_CHECKS : string := "ASSERTION_TIMESTAMP_CHECKS".
Definition CRITERIA_PROPERTY_DEPENDENCIES : string := "CRITERIA_PROPERTY_DEPENDENCIES".
Definition IDENTITY_OBJECT_PROPERTY_DEPENDENCIES : string := "IDENTITY_OBJECT_PROPERTY_DEPENDENCIES".
Definition ISSUER_PROPERTY_DEPENDENCIES : string := "ISSUER_PROPERTY_DEPENDENCIES".
Definition HOSTED_ID_IN_VERIFICATION_SCOPE : string := "HOSTED_ID_IN_VERIFICATION_SCOPE".

(** Modelled from the spec: the class-dependency task kinds of the
    validator tables. *)
Definition CLASS_VALIDATION_TASKS : list string :=
    [ ASSERTION_TIMESTAMP_CHECKS; ASSERTION_VERIFICATION_DEPENDENCIES;
      CRITERIA_PROPERTY_DEPENDENCIES; IDENTITY_OBJECT_PROPERTY_DEPENDENCIES;
      ISSUER_PROPERTY_DEPENDENCIES ].
End task_types.

Import action_types task_types.

(** ** The task reducer ([reducers/tasks.py]) *)

(** The two list comprehensions of [_task_to_add_exists]. *)
Definition same_name_and_node (action t : pydict) : bool :=
  py_eq (get "name" action) (get "name" t) &&
  py_eq (get "node_id" action) (get "node_id" t).

Definition same_node_and_prop (action t : pydict) : bool :=
  py_eq (get "node_id" action) (get "node_id" t) &&
  py_eq (get "prop_name" action) (get "prop_name" t).

(** Indexing the filtered list at 0 raises [IndexError] when it is empty;
    the handler of the [try] turns that into [False]. *)
Definition _task_to_add_exists (state : list pydict) (action : pydict) : bool :=
  if py_eq (get "name" action) (PStr VALIDATE_EXPECTED_NODE_CLASS) then
    match index0 (filter (λ t, same_name_and_node action t = true) state) with
    | Ok _ => true
    | Raise _ => false
    end
  else if py_in (get "name" action)
                [PStr VALIDATE_PROPERTY; PStr VALIDATE_RDF_TYPE_PROPERTY] then
    match index0 (filter (λ t, same_node_and_prop action t = true) state) with
    | Ok _ => true
    | Raise _ => false
    end
  else false.

(** [[t for t in state if t['task_id'] == action['task_id']]]: both
    subscripts are evaluated for every task of the queue, in that order. *)
Fixpoint tasks_with_id (state : list pydict) (action : pydict)
  : result (list pydict) :=
  match state with
  | [] => Ok []
  | t :: rest =>
      tid ← getitem "task_id" t;
      aid ← getitem "task_id" action;
      found ← tasks_with_id rest action;
      Ok (if py_eq tid aid then t :: found else found)
  end.

Definition _new_state_with_updated_item
    (state : list pydict) (item_id : pyval) (update : pydict) : list pydict :=
  (λ t, if negb (py_eq item_id (get "task_id" t)) then t else update) <$> state.

(** [state[-1]['task_id'] + 1], or 1 for the empty queue. *)
Definition task_counter (state : list pydict) : result pyval :=
  match last state with
  | None => Ok (PInt 1)
  | Some t => tid ← getitem "task_id" t; py_add_int tid 1
  end.

(** The task built on [ADD_TASK]: the two initial keys, then every key of
    the action but ['type'] written over them. *)
Definition new_task (counter : pyval) (action : pydict) : pydict :=
  delete "type" action ∪ <["task_id" := counter]> {["complete" := PBool false]}.

(** The update built on [RESOLVE_TASK]. *)
Definition resolve_update (task action : pydict) : pydict :=
  <["complete" := PBool true]>
    (<["success" := get "success" action]>
       (<["result" := get "result" action]> task)).

(** The update built on [UPDATE_TASK]: every key of the action but ['type']
    and ['task_id'] written over a copy of the task. *)
Definition update_update (task action : pydict) : pydict :=
  delete "type" (delete "task_id" action) ∪ task.

(** The body of the two [try ... except KeyError ... else] statements: a
    [KeyError] returns the state, any other exception propagates. *)
Definition with_task (state : list pydict) (action : pydict)
    (k : pydict → result (list pydict)) : result (list pydict) :=
  match found ← tasks_with_id state action; index0 found with
  | Ok task => k task
  | Raise KeyError => Ok state
  | Raise e => Raise e
  end.

Definition task_reducer (state : option (list pydict)) (action : pydict)
  : result (list pydict) :=
  let state := default [] state in
  counter ← task_counter state;
  if py_eq (get "type" action) (PStr ADD_TASK)
     && negb (_task_to_add_exists state action) then
    Ok (state ++ [new_task counter action])%list
  else if py_eq (get "type" action) (PStr RESOLVE_TASK) then
    with_task state action (λ task,
      aid ← getitem "task_id" action;
      Ok (_new_state_with_updated_item state aid (resolve_update task action)))
  else if py_eq (get "type" action) (PStr UPDATE_TASK) then
    with_task state action (λ task,
      aid ← getitem "task_id" action;
      Ok (_new_state_with_updated_item state aid (update_update task action)))
  else Ok state.

(** The reducer applied to a sequence of actions, from a given queue. *)
Fixpoint run (state : list pydict) (actions : list pydict)
  : result (list pydict) :=
  match actions with
  | [] => Ok state
  | a :: rest => state' ← task_reducer (Some state) a; run state' rest
  end.


(** ** Classes and value types ([tasks/validation.py]) *)

Module OBClasses.
Definition AlignmentObject : string := "AlignmentObject".
Definition Assertion : string := "Assertion".
Definition BadgeClass : string := "BadgeClass".
Definition Criteria : string := "Criteria".
Definition CryptographicKey : string := "CryptographicKey".
Definition Extension : string := "Extension".
Definition Evidence : string := "Evidence".
Definition IdentityObject : string := "IdentityObject".
Definition Image : string := "Image".
Definition Profile : string := "Profile".
Definition RevocationList : string := "RevocationList".
Definition VerificationObject : string := "VerificationObject".
Definition VerificationObjectAssertion : string := "VerificationObjectAssertion".
Definition VerificationObjectIssuer : string := "VerificationObjectIssuer".

Definition ALL_CLASSES : list string :=
  [ AlignmentObject; Assertion; BadgeClass; Criteria; CryptographicKey;
    Extension; Evidence; IdentityObject; Image; Profile; RevocationList;
    VerificationObject ].
End OBClasses.

Module ValueTypes.
Definition BOOLEAN : string := "BOOLEAN".
Definition DATA_URI : string := "DATA_URI".
Definition DATA_URI_OR_URL : string := "DATA_URI_OR_URL".
Definition DATETIME : string := "DATETIME".
Definition EMAIL : string := "EMAIL".
Definition ID : string := "ID".
Definition IDENTITY_HASH : string := "IDENTITY_HASH".
Definition IRI : string := "IRI".
Definition MARKDOWN_TEXT : string := "MARKDOWN_TEXT".
Definition RDF_TYPE : string := "RDF_TYPE".
Definition TEXT : string := "TEXT".
Definition URL : string := "URL".

Definition PRIMITIVES : list string :=
  [ BOOLEAN; DATETIME; ID; IDENTITY_HASH; IRI; MARKDOWN_TEXT; TEXT; URL ].
End ValueTypes.

Import OBClasses ValueTypes.

(** ** The engine state and the action constructors *)

(** The state the handlers receive: the NodeStore (the graph) and the task
    queue. *)
Record engine_state : Type := {
  graph : list pydict;
  tasks : list pydict
}.

(** Modelled from the spec: [get_node_by_id] of [badgecheck/state.py] is not
    among the sources.  It looks the node up by its [id] in the NodeStore
    and raises [IndexError] when no node has it (the handlers catch
    [IndexError] around it). *)
Definition get_node_by_id (state : engine_state) (node_id : pyval)
  : result pydict :=
  index0 (filter (λ node, py_eq (get "id" node) node_id = true) (graph state)).

(** A handler's outcome [(success, message, actions)]. *)
Definition outcome : Type := bool * string * list pydict.

(** Modelled from the spec: [task_result] of [badgecheck/tasks/utils.py] is
    not among the sources.  A handler returns
    [(success, message, follow_up_actions)], no actions when none are
    given. *)
Definition task_result (success : bool) (message : string)
    (actions : list pydict) : outcome :=
  (success, message, actions).

(** Modelled from the spec: [add_task] of [badgecheck/actions/tasks.py] is
    not among the sources.  [ADD_TASK(kind, params...)]: an action of type
    [ADD_TASK] with the task kind as [name] and the keyword parameters as
    payload. *)
Definition add_task (task_name : pyval) (kwargs : pydict) : pydict :=
  kwargs ∪ <["type" := PStr ADD_TASK]> {["name" := task_name]}.

(** Modelled from the spec: [patch_node] of [badgecheck/actions/graph.py] is
    not among the sources.  [PATCH_NODE(node_id, data)]: an action of type
    [PATCH_NODE] naming the node and carrying the patch mapping. *)
Definition patch_node (node_id : pyval) (data : list (string * pyval))
  : pydict :=
  <["type" := PStr PATCH_NODE]>
    (<["node_id" := node_id]> {["data" := PDict data]}).

(** A dictionary literal. *)
Definition dict (entries : list (string * pyval)) : pydict :=
  list_to_map entries.

(** ** Library calls *)

(** A parsed [datetime]: its instant, and whether it carries [tzinfo]. *)
Record datetime : Type := {
  instant : Z;
  aware : bool
}.

(** Ordering two datetimes raises [TypeError] when one is naive and the
    other aware. *)
Definition dt_lt (a b : datetime) : result bool :=
  if Bool.eqb (aware a) (aware b) then Ok (Z.ltb (instant a) (instant b))
  else Raise TypeError.

(** What the handlers call outside this repository's sources: the helpers
    of [tasks/utils.py], [rfc3986], [re], [aniso8601], [pyld] and the
    rendering of a value by [str.format]. *)
Class Library : Type := {
  (* [is_iri(value)] and [is_url(value)] of [tasks/utils.py] *)
  is_iri : pyval → bool;
  is_url : pyval → bool;
  (* [abbreviate_value(value)], rendered *)
  abbreviate_value : pyval → string;
  (* ["{}".format(value)] *)
  fmt : pyval → string;
  (* [rfc3986.is_valid_uri(value, require_scheme=True)] *)
  rfc3986_is_valid_uri : string → result bool;
  (* [bool(re.match(pattern, value))] and the same with [re.IGNORECASE] *)
  re_match : string → string → bool;
  re_match_ignorecase : string → string → bool;
  (* [aniso8601.parse_datetime(value)] *)
  parse_datetime : pyval → result datetime;
  (* ["{}".format(d)] for a datetime *)
  fmt_datetime : datetime → string;
  (* [jsonld.expand({'@context': ..., 'type': value})[0]['@type'][0]] *)
  jsonld_expand_type : string → result pyval
}.

(** [value[-1:] == 'Z'] *)
Fixpoint ends_with_Z (s : string) : bool :=
  match s with
  | EmptyString => false
  | String c EmptyString => Ascii.eqb c "Z"%char
  | String _ rest => ends_with_Z rest
  end.

(** [needle in haystack] for two strings. *)
Fixpoint is_substring (needle haystack : string) : bool :=
  String.prefix needle haystack ||
  match haystack with
  | EmptyString => false
  | String _ rest => is_substring needle rest
  end.

(** [val in container]: element of a list, substring of a string, key of a
    dictionary; any other container is not iterable, and a string contains
    strings only. *)
Definition py_in_val (val container : pyval) : result bool :=
  match container with
  | PList l => Ok (py_in val l)
  | PStr s =>
      match val with
      | PStr needle => Ok (is_substring needle s)
      | _ => Raise TypeError
      end
  | PDict d =>
      match val with
      | PStr k => Ok (bool_decide (is_Some (assoc k d)))
      | PList _ | PDict _ => Raise TypeError
      | _ => Ok false
      end
  | _ => Raise TypeError
  end.

(** [any(val in container for val in values)]: it stops at the first
    element found. *)
Fixpoint any_in (values : list pyval) (container : pyval) : result bool :=
  match values with
  | [] => Ok false
  | val :: rest =>
      match py_in_val val container with
      | Ok true => Ok true
      | Ok false => any_in rest container
      | Raise e => Raise e
      end
  end.

(** [is_empty_list] and [is_null_list] of [tasks/utils.py], on the list
    [values_to_test]. *)
Definition is_empty_list (values : list pyval) : bool :=
  match values with [] => true | _ => false end.

Definition is_null_list (values : list pyval) : bool :=
  forallb (λ v, match v with PNone => true | _ => false end) values.

(** ** The primitive value validator *)

Section Handlers.
Context `{lib : Library}.

Definition data_uri_regex : string :=
  "(?P<scheme>^data):(?P<mimetypes>[^,]{0,}?)?(?P<encoding>base64)?,(?P<data>.*$)".

Definition _validate_boolean (value : pyval) : result pyval :=
  Ok (PBool (is_bool value)).

(** The scheme group of a match of [data_uri_regex] is the text [data] in
    some case, so its lower-case form is ['data'] whenever there is a
    match. A [ValueError] of the URI parser leaves [ret] at [False]. *)
Definition _validate_data_uri (value : pyval) : result pyval :=
  match value with
  | PStr s =>
      if py_truthy value then
        match rfc3986_is_valid_uri s with
        | Ok valid => Ok (PBool (valid && re_match_ignorecase data_uri_regex s))
        | Raise ValueError => Ok (PBool false)
        | Raise e => Raise e
        end
      else Ok (PBool false)
  | _ => Ok (PBool false)
  end.

Definition _validate_url (value : pyval) : result pyval :=
  Ok (PBool (is_url value)).

Definition _validate_data_uri_or_url (value : pyval) : result pyval :=
  url ← _validate_url value;
  if py_truthy url then Ok (PBool true)
  else uri ← _validate_data_uri value; Ok (PBool (py_truthy uri)).

(** Any exception of the parser gives [False]. *)
Definition _validate_datetime (value : pyval) : result pyval :=
  match parse_datetime value with
  | Raise _ => Ok (PBool false)
  | Ok _ =>
      match value with
      | PStr s =>
          Ok (PBool (ends_with_Z s
                     || re_match ".*[+-](?:\d{4}|\d{2}|\d{2}:\d{2})$" s))
      | _ => Ok (PBool false)
      end
  end.

(** [re.match] raises [TypeError] on a value that is not a string. *)
Definition _validate_email (value : pyval) : result pyval :=
  match value with
  | PStr s => Ok (PBool (re_match "(^[^@]+@[^@]+$)" s))
  | _ => Raise TypeError
  end.

Definition is_hashed_identity_hash (value : pyval) : result bool :=
  match value with
  | PStr s => Ok (re_match "md5\$[\da-fA-F]{32}$" s
                  || re_match "sha256\$[\da-fA-F]{64}$" s)
  | _ => Raise TypeError
  end.

Definition _validate_identity_hash (value : pyval) : result pyval :=
  Ok (PBool (is_string value)).

Definition _validate_iri (value : pyval) : result pyval :=
  Ok (PBool (is_iri value)).

Definition _validate_text (value : pyval) : result pyval :=
  Ok (PBool (is_string value)).

(** [return cls._validate_text]: the function itself, not its result on
    [value]. *)
Definition _validate_markdown_text (value : pyval) : result pyval :=
  Ok (PFunc "_validate_text").

(** The [ValidationError] raised inside the [try] and a [JsonLdError] of the
    expansion give [False]; any other exception propagates. *)
Definition _validate_rdf_type (value : pyval) : result pyval :=
  match value with
  | PStr s =>
      match jsonld_expand_type s with
      | Ok expanded_value =>
          iri ← _validate_iri expanded_value;
          Ok (PBool (py_truthy iri))
      | Raise JsonLdError => Ok (PBool false)
      | Raise (ValidationError _) => Ok (PBool false)
      | Raise e => Raise e
      end
  | _ => Ok (PBool false)
  end.

(** The table [value_check_functions] of [__init__], keyed by the value
    type: a type that is not a key ([ID], [EMAIL], [None], ...) raises
    [KeyError], an unhashable one [TypeError]. *)
Definition value_check_functions (value_type : string)
  : option (pyval → result pyval) :=
  if String.eqb value_type BOOLEAN then Some _validate_boolean
  else if String.eqb value_type DATA_URI then Some _validate_data_uri
  else if String.eqb value_type DATA_URI_OR_URL then Some _validate_data_uri_or_url
  else if String.eqb value_type DATETIME then Some _validate_datetime
  else if String.eqb value_type IDENTITY_HASH then Some _validate_identity_hash
  else if String.eqb value_type IRI then Some _validate_iri
  else if String.eqb value_type MARKDOWN_TEXT then Some _validate_markdown_text
  else if String.eqb value_type RDF_TYPE then Some _validate_rdf_type
  else if String.eqb value_type TEXT then Some _validate_text
  else if String.eqb value_type URL then Some _validate_url
  else None.

(** [PrimitiveValueValidator(value_type)(value)]. *)
Definition PrimitiveValueValidator (value_type value : pyval) : result pyval :=
  match value_type with
  | PStr t =>
      match value_check_functions t with
      | Some is_valid => is_valid value
      | None => Raise KeyError
      end
  | PList _ | PDict _ => Raise TypeError
  | _ => Raise KeyError
  end.

(** ** [validate_property] *)

(** The loop over [values_to_test] for a [prop_type] other than [ID]. *)
Fixpoint check_primitive_values (task_meta : pydict) (node_class node_id : pyval)
    (values : list pyval) : result unit :=
  match values with
  | [] => Ok ()
  | val :: rest =>
      ok ← PrimitiveValueValidator (get "prop_type" task_meta) val;
      if negb (py_truthy ok) then
        Raise (ValidationError
          (fmt (get "prop_type" task_meta) +:+ " property "
           +:+ fmt (get "prop_name" task_meta) +:+ " value "
           +:+ abbreviate_value val +:+ " not valid in "
           +:+ fmt node_class +:+ " " +:+ fmt node_id))
      else check_primitive_values task_meta node_class node_id rest
  end.

(** [task_meta.get('allow_remote_url') and
    PrimitiveValueValidator(ValueTypes.URL)(val)], as a truth value. *)
Definition acceptable_remote_url (task_meta : pydict) (val : pyval)
  : result bool :=
  if py_truthy (get "allow_remote_url" task_meta) then
    url ← PrimitiveValueValidator (PStr URL) val;
    Ok (py_truthy url)
  else Ok false.

(** The loop over [values_to_test] for the [ID] type; it returns the actions
    appended on the way. *)
Fixpoint check_id_values (state : engine_state) (task_meta : pydict)
    (node_id : pyval) (values : list pyval) : result (list pydict) :=
  match values with
  | [] => Ok []
  | val :: rest =>
      iri ← PrimitiveValueValidator (PStr IRI) val;
      if negb (py_truthy iri) then
        Raise (ValidationError
          ("ID-type property " +:+ fmt (get "prop_name" task_meta)
           +:+ " had value `" +:+ abbreviate_value val
           +:+ "` not in IRI format in " +:+ fmt node_id +:+ "."))
      else if negb (py_truthy (get_or "fetch" (PBool false) task_meta)) then
        match get_node_by_id state val with
        | Ok target =>
            more ← check_id_values state task_meta node_id rest;
            Ok (add_task (PStr VALIDATE_EXPECTED_NODE_CLASS)
                  (<["node_id" := val]>
                     {["expected_class" := get "expected_class" task_meta]})
                :: more)
        | Raise IndexError =>
            match acceptable_remote_url task_meta val with
            | Ok true => check_id_values state task_meta node_id rest
            | Ok false =>
              Raise (ValidationError
                ("Node " +:+ fmt node_id +:+ " has "
                 +:+ fmt (get "prop_name" task_meta) +:+ " property value `"
                 +:+ abbreviate_value val
                 +:+ "` that appears not to be in URI format"
                 +:+ " or did not correspond to a known local node."))
            | Raise e => Raise e
            end
        | Raise e => Raise e
        end
      else
        more ← check_id_values state task_meta node_id rest;
        Ok (add_task (PStr FETCH_HTTP_NODE)
              (<["url" := val]>
                 {["expected_class" := get "expected_class" task_meta]})
            :: more)
  end.

Definition validate_property (state : engine_state) (task_meta : pydict)
  : result outcome :=
  let node_id := get "node_id" task_meta in
  node ← get_node_by_id state node_id;
  let node_class := get_or "node_class" (PStr "unknown type node") task_meta in
  let prop_name := get "prop_name" task_meta in
  let prop_type := get "prop_type" task_meta in
  let required := py_truthy (get "required" task_meta) in
  let allow_many := get "many" task_meta in
  match getitem_val prop_name node with
  | Raise KeyError =>
      if negb required then
        Ok (task_result true
              ("Optional property " +:+ fmt prop_name +:+ " not present in "
               +:+ fmt node_class +:+ " " +:+ fmt node_id) [])
      else
        Ok (task_result false
              ("Required property " +:+ fmt prop_name +:+ " not present in "
               +:+ fmt node_class +:+ " " +:+ fmt node_id) [])
  | Raise e => Raise e
  | Ok prop_value =>
      let values_to_test :=
        match prop_value with PList l => l | _ => [prop_value] end in
      if required && (is_empty_list values_to_test || is_null_list values_to_test) then
        Ok (task_result false
              ("Required property " +:+ fmt prop_name +:+ " value "
               +:+ abbreviate_value prop_value +:+ " is not acceptable in "
               +:+ fmt node_class +:+ " " +:+ fmt node_id) [])
      else if negb required
              && (is_empty_list values_to_test || is_null_list values_to_test) then
        Ok (task_result true
              ("Optional property " +:+ fmt prop_name +:+ " is null in "
               +:+ fmt node_class +:+ " " +:+ fmt node_id) [])
      else if negb (py_truthy allow_many)
              && Nat.ltb 1 (length values_to_test) then
        Ok (task_result false
              ("Property " +:+ fmt prop_name +:+ " in " +:+ fmt node_class
               +:+ " " +:+ fmt node_id
               +:+ " has more than the single allowed value.") [])
      else
        match
          (if negb (py_eq prop_type (PStr ID)) then
             _ ← check_primitive_values task_meta node_class node_id values_to_test;
             Ok []
           else check_id_values state task_meta node_id values_to_test)
        with
        | Ok actions =>
            Ok (task_result true
                  (fmt prop_type +:+ " property " +:+ fmt prop_name +:+ " value "
                   +:+ abbreviate_value prop_value +:+ " valid in "
                   +:+ fmt node_class +:+ " " +:+ fmt node_id) actions)
        | Raise (ValidationError message) => Ok (task_result false message [])
        | Raise e => Raise e
        end
  end.

(** ** [validate_rdf_type_property] *)

Definition validate_rdf_type_property (state : engine_state)
    (task_meta : pydict) : result outcome :=
  prop_result ← validate_property state task_meta;
  if negb (prop_result.1.1) then Ok prop_result
  else
    let node_id := get "node_id" task_meta in
    node ← get_node_by_id state node_id;
    let prop_value := get "type" node in
    let default := get "default" task_meta in
    let must_contain_one := get "must_contain_one" task_meta in
    if negb (py_truthy prop_value) && py_truthy default then
      Ok (task_result true (prop_result.1.2)
            [patch_node node_id [("type", default)]])
    else
      let values_to_test :=
        match prop_value with PList l => l | _ => [prop_value] end in
      if py_truthy must_contain_one then
        match any_in values_to_test must_contain_one with
        | Ok false =>
            Ok (task_result false
                  ("Node " +:+ fmt node_id +:+ " of type "
                   +:+ abbreviate_value prop_value
                   +:+ " does not have type among allowed values ("
                   +:+ abbreviate_value must_contain_one +:+ ")") [])
        | Ok true => Ok prop_result
        | Raise e => Raise e
        end
      else Ok prop_result.

(** ** The class validator tables *)

Definition str_list (l : list string) : pyval := PList (PStr <$> l).

Definition Assertion_validators : list pydict :=
  [ dict [("prop_name", PStr "id"); ("prop_type", PStr IRI); ("required", PBool true)];
    dict [("prop_name", PStr "type"); ("prop_type", PStr RDF_TYPE); ("required", PBool true);
          ("many", PBool true); ("must_contain_one", str_list ["Assertion"])];
    dict [("prop_name", PStr "recipient"); ("prop_type", PStr ID);
          ("expected_class", PStr IdentityObject); ("required", PBool true)];
    dict [("prop_name", PStr "badge"); ("prop_type", PStr ID);
          ("expected_class", PStr BadgeClass); ("fetch", PBool true); ("required", PBool true)];
    dict [("prop_name", PStr "verification"); ("prop_type", PStr ID);
          ("expected_class", PStr VerificationObjectAssertion); ("required", PBool true)];
    dict [("prop_name", PStr "issuedOn"); ("prop_type", PStr DATETIME); ("required", PBool true)];
    dict [("prop_name", PStr "expires"); ("prop_type", PStr DATETIME); ("required", PBool false)];
    dict [("prop_name", PStr "image"); ("prop_type", PStr URL); ("required", PBool false)];
    dict [("prop_name", PStr "narrative"); ("prop_type", PStr MARKDOWN_TEXT); ("required", PBool false)];
    dict [("prop_name", PStr "evidence"); ("prop_type", PStr ID); ("allow_remote_url", PBool true);
          ("expected_class", PStr Evidence); ("many", PBool true); ("fetch", PBool false);
          ("required", PBool false)];
    dict [("task_type", PStr ASSERTION_VERIFICATION_DEPENDENCIES);
          ("prerequisites", PStr ISSUER_PROPERTY_DEPENDENCIES)];
    dict [("task_type", PStr ASSERTION_TIMESTAMP_CHECKS)] ].

Definition BadgeClass_validators : list pydict :=
  [ dict [("prop_name", PStr "id"); ("prop_type", PStr IRI); ("required", PBool true)];
    dict [("prop_name", PStr "type"); ("prop_type", PStr RDF_TYPE); ("required", PBool true);
          ("many", PBool true); ("must_contain_one", str_list ["BadgeClass"])];
    dict [("prop_name", PStr "issuer"); ("prop_type", PStr ID);
          ("expected_class", PStr Profile); ("fetch", PBool true); ("required", PBool true)];
    dict [("prop_name", PStr "name"); ("prop_type", PStr TEXT); ("required", PBool true)];
    dict [("prop_name", PStr "description"); ("prop_type", PStr TEXT); ("required", PBool true)];
    dict [("prop_name", PStr "image"); ("prop_type", PStr DATA_URI_OR_URL); ("required", PBool true)];
    dict [("prop_name", PStr "criteria"); ("prop_type", PStr ID);
          ("expected_class", PStr Criteria); ("fetch", PBool false);
          ("required", PBool true); ("allow_remote_url", PBool true)];
    dict [("prop_name", PStr "alignment"); ("prop_type", PStr ID);
          ("expected_class", PStr AlignmentObject); ("many", PBool true); ("fetch", PBool false);
          ("required", PBool false)];
    dict [("prop_name", PStr "tags"); ("prop_type", PStr TEXT); ("many", PBool true);
          ("required", PBool false)] ].

Definition Profile_validators : list pydict :=
  [ dict [("prop_name", PStr "id"); ("prop_type", PStr IRI); ("required", PBool true)];
    dict [("prop_name", PStr "type"); ("prop_type", PStr RDF_TYPE); ("required", PBool true);
          ("many", PBool true); ("must_contain_one", str_list ["Issuer"; "Profile"])];
    dict [("prop_name", PStr "name"); ("prop_type", PStr TEXT); ("required", PBool true)];
    dict [("prop_name", PStr "description"); ("prop_type", PStr TEXT); ("required", PBool false)];
    dict [("prop_name", PStr "image"); ("prop_type", PStr DATA_URI_OR_URL); ("required", PBool false)];
    dict [("prop_name", PStr "url"); ("prop_type", PStr URL); ("required", PBool true)];
    dict [("prop_name", PStr "email"); ("prop_type", PStr TEXT); ("required", PBool true)];
    dict [("prop_name", PStr "telephone"); ("prop_type", PStr TEXT); ("required", PBool false)];
    dict [("prop_name", PStr "verification"); ("prop_type", PStr ID);
          ("expected_class", PStr VerificationObjectIssuer); ("fetch", PBool false);
          ("required", PBool false)];
    dict [("task_type", PStr ISSUER_PROPERTY_DEPENDENCIES)] ].

Definition AlignmentObject_validators : list pydict :=
  [ dict [("prop_name", PStr "type"); ("prop_type", PStr RDF_TYPE);
          ("many", PBool true); ("required", PBool false); ("default", PStr AlignmentObject)];
    dict [("prop_name", PStr "targetName"); ("prop_type", PStr TEXT); ("required", PBool true)];
    dict [("prop_name", PStr "targetUrl"); ("prop_type", PStr URL); ("required", PBool true)];
    dict [("prop_name", PStr "description"); ("prop_type", PStr TEXT); ("required", PBool false)];
    dict [("prop_name", PStr "targetFramework"); ("prop_type", PStr TEXT); ("required", PBool false)];
    dict [("prop_name", PStr "targetCode"); ("prop_type", PStr TEXT); ("required", PBool false)] ].

Definition Criteria_validators : list pydict :=
  [ dict [("prop_name", PStr "type"); ("prop_type", PStr RDF_TYPE);
          ("many", PBool true); ("required", PBool false); ("default", PStr Criteria)];
    dict [("prop_name", PStr "id"); ("prop_type", PStr IRI); ("required", PBool false)];
    dict [("prop_name", PStr "narrative"); ("prop_type", PStr MARKDOWN_TEXT); ("required", PBool false)];
    dict [("task_type", PStr CRITERIA_PROPERTY_DEPENDENCIES)] ].

Definition IdentityObject_validators : list pydict :=
  [ dict [("prop_name", PStr "type"); ("prop_type", PStr RDF_TYPE); ("required", PBool true);
          ("many", PBool false);
          ("must_contain_one", str_list ["id"; "email"; "url"; "telephone"])];
    dict [("prop_name", PStr "identity"); ("prop_type", PStr IDENTITY_HASH); ("required", PBool true)];
    dict [("prop_name", PStr "hashed"); ("prop_type", PStr BOOLEAN); ("required", PBool true)];
    dict [("prop_name", PStr "salt"); ("prop_type", PStr TEXT); ("required", PBool false)];
    dict [("task_type", PStr IDENTITY_OBJECT_PROPERTY_DEPENDENCIES)] ].

Definition Evidence_validators : list pydict :=
  [ dict [("prop_name", PStr "type"); ("prop_type", PStr RDF_TYPE); ("many", PBool true);
          ("required", PBool false); ("default", PStr "Evidence")];
    dict [("prop_name", PStr "id"); ("prop_type", PStr IRI); ("required", PBool false)];
    dict [("prop_name", PStr "narrative"); ("prop_type", PStr MARKDOWN_TEXT); ("required", PBool false)];
    dict [("prop_name", PStr "name"); ("prop_type", PStr TEXT); ("required", PBool false)];
    dict [("prop_name", PStr "description"); ("prop_type", PStr TEXT); ("required", PBool false)];
    dict [("prop_name", PStr "genre"); ("prop_type", PStr TEXT); ("required", PBool false)];
    dict [("prop_name", PStr "audience"); ("prop_type", PStr TEXT); ("required", PBool false)] ].

Definition Image_validators : list pydict :=
  [ dict [("prop_name", PStr "type"); ("prop_type", PStr RDF_TYPE); ("many", PBool true);
          ("required", PBool false); ("default", PStr "schema:ImageObject")];
    dict [("prop_name", PStr "id"); ("prop_type", PStr DATA_URI_OR_URL); ("required", PBool true)];
    dict [("prop_name", PStr "caption"); ("prop_type", PStr TEXT); ("required", PBool false)];
    dict [("prop_name", PStr "author"); ("prop_type", PStr IRI); ("required", PBool false)] ].

Definition VerificationObjectAssertion_validators : list pydict :=
  [ dict [("prop_name", PStr "type"); ("prop_type", PStr RDF_TYPE); ("required", PBool true);
          ("many", PBool false);
          ("must_contain_one", str_list ["HostedBadge"; "SignedBadge"])] ].

Definition VerificationObjectIssuer_validators : list pydict :=
  [ dict [("prop_name", PStr "type"); ("prop_type", PStr RDF_TYPE); ("required", PBool false);
          ("many", PBool true); ("default", PStr "VerificationObject")];
    dict [("prop_name", PStr "verificationProperty"); ("prop_type", PStr IRI);
          ("required", PBool false)];
    dict [("prop_name", PStr "startsWith"); ("prop_type", PStr URL); ("required", PBool false)];
    dict [("prop_name", PStr "allowedOrigins"); ("prop_type", PStr TEXT); ("required", PBool false);
          ("many", PBool true)] ].

(** [ClassValidators(class_name).validators]: the constructor raises
    [NotImplementedError] for any other class name. *)
Definition ClassValidators (class_name : pyval) : result (list pydict) :=
  if py_eq class_name (PStr Assertion) then Ok Assertion_validators
  else if py_eq class_name (PStr BadgeClass) then Ok BadgeClass_validators
  else if py_eq class_name (PStr Profile) then Ok Profile_validators
  else if py_eq class_name (PStr AlignmentObject) then Ok AlignmentObject_validators
  else if py_eq class_name (PStr Criteria) then Ok Criteria_validators
  else if py_eq class_name (PStr IdentityObject) then Ok IdentityObject_validators
  else if py_eq class_name (PStr Evidence) then Ok Evidence_validators
  else if py_eq class_name (PStr Image) then Ok Image_validators
  else if py_eq class_name (PStr VerificationObjectAssertion)
    then Ok VerificationObjectAssertion_validators
  else if py_eq class_name (PStr VerificationObjectIssuer)
    then Ok VerificationObjectIssuer_validators
  else Raise NotImplementedError.

(** The keyword arguments [node_id=node_id, node_class=node_class,
    **validator] of the three [add_task] calls (no table entry has a
    [node_id] or [node_class] key of its own). *)
Definition task_kwargs (node_id node_class : pyval) (validator : pydict)
  : pydict :=
  <["node_id" := node_id]> (<["node_class" := node_class]> validator).

(** One turn of the loop of [_get_validation_actions]: the actions appended
    for one validator. *)
Definition validator_actions (node_id node_class : pyval) (validator : pydict)
  : list pydict :=
  ((if py_eq (get "prop_type" validator) (PStr RDF_TYPE) then
      [add_task (PStr VALIDATE_RDF_TYPE_PROPERTY)
         (task_kwargs node_id node_class validator)]
    else []) ++
   (if py_in (get "prop_type" validator) (PStr <$> PRIMITIVES) then
      [add_task (PStr VALIDATE_PROPERTY)
         (task_kwargs node_id node_class validator)]
    else if py_in (get "task_type" validator) (PStr <$> CLASS_VALIDATION_TASKS) then
      [add_task (get "task_type" validator)
         (task_kwargs node_id node_class validator)]
    else []))%list.

Definition _get_validation_actions (node_id node_class : pyval)
  : result (list pydict) :=
  validators ← ClassValidators node_class;
  Ok (concat (validator_actions node_id node_class <$> validators)).

(** ** The node class tasks *)

(** The loop over [OBClasses.ALL_CLASSES]: the first class equal to the
    declared type, [None] when there is none. *)
Definition detect_node_class (declared_node_type : pyval) : pyval :=
  match List.find (λ ob_class, py_eq declared_node_type (PStr ob_class)) ALL_CLASSES with
  | Some ob_class => PStr ob_class
  | None => PNone
  end.

Definition detect_and_validate_node_class (state : engine_state)
    (task_meta : pydict) : result outcome :=
  let node_id := get "node_id" task_meta in
  node ← get_node_by_id state node_id;
  let declared_node_type := get "type" node in
  let node_class := detect_node_class declared_node_type in
  actions ← _get_validation_actions (get "node_id" task_meta) node_class;
  Ok (task_result true
        ("Declared type on node " +:+ fmt node_id +:+ " is "
         +:+ fmt declared_node_type) actions).

Definition validate_expected_node_class (state : engine_state)
    (task_meta : pydict) : result outcome :=
  let node_id := get "node_id" task_meta in
  node ← get_node_by_id state node_id;
  let node_class := get "expected_class" task_meta in
  actions ← _get_validation_actions node_id node_class;
  Ok (task_result true
        ("Queued property validations for node " +:+ fmt node_id
         +:+ " of class " +:+ fmt node_class) actions).

(** ** The class validation tasks *)

Definition identity_object_property_dependencies (state : engine_state)
    (task_meta : pydict) : result outcome :=
  let node_id := get "node_id" task_meta in
  node ← get_node_by_id state node_id;
  let identity := get "identity" node in
  is_hashed ← is_hashed_identity_hash identity;
  is_email ← match identity with
             | PStr s => Ok (re_match "[^@]+@[^@]+$" s)
             | _ => Raise TypeError
             end;
  let hashed := py_truthy (get "hashed" node) in
  if hashed && negb is_hashed then
    Ok (task_result false
          ("Identity " +:+ fmt identity
           +:+ " must match known hash style if hashed is true") [])
  else if is_hashed && negb hashed then
    Ok (task_result false
          ("Identity " +:+ fmt identity
           +:+ " must not be hashed if hashed is false") [])
  else
    match (if negb hashed then
             email_type ← py_in_val (PStr "email") (get "type" node);
             Ok (email_type && negb is_email)
           else Ok false) with
    | Ok true =>
        Ok (task_result false "Email type identity must match email format." [])
    | Ok false => Ok (task_result true "IdentityObject passes validation rules." [])
    | Raise e => Raise e
    end.

Definition criteria_property_dependencies (state : engine_state)
    (task_meta : pydict) : result outcome :=
  let node_id := get "node_id" task_meta in
  node ← get_node_by_id state node_id;
  match node_id with
  | PStr s =>
      let is_blank_id_node := re_match "_:b\d+$" s in
      let narrative := py_truthy (get "narrative" node) in
      if is_blank_id_node && negb narrative then
        Ok (task_result false
              ("Criteria node " +:+ fmt node_id
               +:+ " has no narrative. Either external id or narrative is required.") [])
      else if is_blank_id_node then
        Ok (task_result true
              ("Criteria node " +:+ fmt node_id
               +:+ " is a narrative-based piece of evidence.") [])
      else if negb is_blank_id_node && narrative then
        Ok (task_result true "Criteria node {} has a URL and narrative." [])
      else Ok (task_result true "Criteria node {} has a URL." [])
  | _ => Raise TypeError
  end.

Definition assertion_verification_dependencies (state : engine_state)
    (task_meta : pydict) : result outcome :=
  match
    (assertion_id ← getitem "node_id" task_meta;
     assertion_node ← get_node_by_id state assertion_id;
     node_id ← getitem "verification" assertion_node;
     node ← get_node_by_id state node_id;
     Ok (assertion_id, node_id, node))
  with
  | Raise IndexError | Raise KeyError => Raise TaskPrerequisitesError
  | Raise e => Raise e
  | Ok (assertion_id, node_id, node) =>
      let actions :=
        if py_eq (get "type" node) (PStr "HostedBadge") then
          [add_task (PStr HOSTED_ID_IN_VERIFICATION_SCOPE)
             {["node_id" := assertion_id]}]
        else [] in
      Ok (task_result true
            (fmt (get "type" node) +:+ " Assertion " +:+ fmt node_id
             +:+ " verification dependencies noted.") actions)
  end.

(** [datetime.now(utc)] is the reading of the system clock at the call; it
    is the argument [now] here, an instant of an aware datetime. *)
Definition assertion_timestamp_checks (now : Z) (state : engine_state)
    (task_meta : pydict) : result outcome :=
  match
    (node_id ← getitem "node_id" task_meta;
     assertion ← get_node_by_id state node_id;
     issued ← getitem "issuedOn" assertion;
     issued_on ← parse_datetime issued;
     Ok (node_id, assertion, issued_on))
  with
  | Raise IndexError | Raise KeyError | Raise ValueError =>
      Raise TaskPrerequisitesError
  | Raise e => Raise e
  | Ok (node_id, assertion, issued_on) =>
      let now_dt := {| instant := now; aware := true |} in
      match dt_lt now_dt issued_on with
      | Raise e => Raise e
      | Ok true =>
          Ok (task_result false
                ("Assertion " +:+ fmt node_id +:+ " has issue date "
                 +:+ fmt_datetime issued_on +:+ " in the future.") [])
      | Ok false =>
          if py_truthy (get "expires" assertion) then
            expires ← parse_datetime (get "expires" assertion);
            match dt_lt expires issued_on with
            | Raise e => Raise e
            | Ok true =>
                Ok (task_result false
                      ("Assertion " +:+ fmt node_id
                       +:+ " expiration is prior to issue date.") [])
            | Ok false =>
                match dt_lt expires now_dt with
                | Raise e => Raise e
                | Ok true =>
                    Ok (task_result false
                          ("Assertion " +:+ fmt node_id +:+ " expired on "
                           +:+ fmt (get "expires" assertion)) [])
                | Ok false =>
                    Ok (task_result true
                          ("Assertion " +:+ fmt node_id
                           +:+ " was issued and has not expired.") [])
                end
            end
          else
            Ok (task_result true
                  ("Assertion " +:+ fmt node_id
                   +:+ " was issued and has not expired.") [])
      end
  end.

Definition issuer_property_dependencies (state : engine_state)
    (task_meta : pydict) : result outcome :=
  Ok (task_result true "No issuer property dependencies to check." []).

End Handlers.

(** ** Properties of the queue, as the specification states them *)

(** A task and an action agree on the key [k], as [==] sees the two
    [.get(k)]. *)
Definition same (k : string) (action t : pydict) : Prop :=
  py_eq (get k action) (get k t) = true.

(** The deduplication rule in the specification's words: by kind of the
    action, some existing task has the same [name] and [node_id], or the
    same [node_id] and [prop_name]; never for another kind. *)
Definition is_duplicate (state : list pydict) (action : pydict) : Prop :=
  (get "name" action = PStr VALIDATE_EXPECTED_NODE_CLASS ∧
   ∃ t, t ∈ state ∧ same "name" action t ∧ same "node_id" action t)
  ∨
  ((get "name" action = PStr VALIDATE_PROPERTY ∨
    get "name" action = PStr VALIDATE_RDF_TYPE_PROPERTY) ∧
   ∃ t, t ∈ state ∧ same "node_id" action t ∧ same "prop_name" action t).

(** The reducer can number the next task: [state[-1]['task_id'] + 1]
    evaluates. *)
Definition counter_defined (state : list pydict) : Prop :=
  ∃ counter, task_counter state = Ok counter.

Definition is_add_task (action : pydict) : Prop :=
  get "type" action = PStr ADD_TASK.

(** An [ADD_TASK] action whose payload has no [task_id] and no [complete]
    of its own. *)
Definition plain_add_task (action : pydict) : Prop :=
  is_add_task action ∧ action !! "task_id" = None ∧ action !! "complete" = None.

(** [max(existing task_ids)], 0 for the empty queue. *)
Definition max_task_id (state : list pydict) : Z :=
  foldr (λ t m, match get "task_id" t with PInt n => Z.max n m | _ => m end)
        0 state.

(** The task ids of the queue are 1, 2, 3, ... in order. *)
Definition numbered_from_1 (state : list pydict) : Prop :=
  get "task_id" <$> state
  = (λ i : nat, PInt (Z.of_nat i)) <$> seq 1 (length state).

(** One [ADD_TASK] step: a duplicate is dropped and the queue returned as
    it is; any other action appends exactly one task, with the next id,
    [complete = False] and every key of the payload but [type]. *)
Definition appended_next (state : list pydict) (action : pydict)
    (state' : list pydict) : Prop :=
  (is_duplicate state action ∧ state' = state) ∨
  (¬ is_duplicate state action ∧
   ∃ t, state' = (state ++ [t])%list
        ∧ t !! "task_id" = Some (PInt (max_task_id state + 1))
        ∧ t !! "complete" = Some (PBool false)
        ∧ ∀ k v, k ≠ "type" → action !! k = Some v → t !! k = Some v).

(** The numbering claim at a sequence of actions applied to the empty
    queue: the run returns, every step drops a duplicate or appends the
    action's task under the next id, and the ids of the final queue are
    1, 2, 3, ... *)
Definition add_task_numbering (actions : list pydict) : Prop :=
  (∃ final, run [] actions = Ok final ∧ numbered_from_1 final) ∧
  ∀ before a after, actions = (before ++ a :: after)%list →
    ∃ state state', run [] before = Ok state
                    ∧ task_reducer (Some state) a = Ok state'
                    ∧ appended_next state a state'.

(** The task ids of the queue are integers, no two the same. *)
Definition distinct_ids (state : list pydict) : Prop :=
  ∃ ids : list Z, NoDup ids ∧ get "task_id" <$> state = PInt <$> ids.

(** Across one step, every task that was complete is still complete. *)
Definition complete_kept (state state' : list pydict) : Prop :=
  ∀ i t, state !! i = Some t → t !! "complete" = Some (PBool true) →
    ∃ t', state' !! i = Some t' ∧ t' !! "complete" = Some (PBool true).

(** Across one step, a task whose [success] or [result] changed is complete
    afterwards, and a task the step added has neither. *)
Definition outcome_with_completion (state state' : list pydict) : Prop :=
  (∀ i t t', state !! i = Some t → state' !! i = Some t' →
     t' !! "success" ≠ t !! "success" ∨ t' !! "result" ≠ t !! "result" →
     t' !! "complete" = Some (PBool true)) ∧
  (∀ i t', state !! i = None → state' !! i = Some t' →
     t' !! "success" = None ∧ t' !! "result" = None).

(** An action other than an [UPDATE_TASK] that carries the key
    [complete]. *)
Definition keeps_complete (action : pydict) : Prop :=
  get "type" action ≠ PStr UPDATE_TASK ∨ action !! "complete" = None.

(** An action that is a [RESOLVE_TASK], or whose payload has neither
    [success] nor [result]. *)
Definition keeps_outcome (action : pydict) : Prop :=
  get "type" action = PStr RESOLVE_TASK ∨
  (action !! "success" = None ∧ action !! "result" = None).

(** No task of the queue has the [task_id] of the action. *)
Definition unknown_task_id (state : list pydict) (action : pydict) : Prop :=
  ∃ aid, action !! "task_id" = Some aid ∧
    Forall (λ t, ∃ tid, t !! "task_id" = Some tid ∧ py_eq tid aid = false) state.

(** ** Sample queue and actions *)

Definition sample_add (name node_id prop_name : string) : pydict :=
  dict [("type", PStr ADD_TASK); ("name", PStr name);
        ("node_id", PStr node_id); ("prop_name", PStr prop_name)].

Definition sample_task (task_id : Z) (complete : bool) (name node_id prop_name : string)
  : pydict :=
  dict [("task_id", PInt task_id); ("complete", PBool complete); ("name", PStr name);
        ("node_id", PStr node_id); ("prop_name", PStr prop_name)].

Definition sample_queue : list pydict :=
  [ sample_task 1 false VALIDATE_PROPERTY "http://e/bc1" "name";
    sample_task 2 true VALIDATE_EXPECTED_NODE_CLASS "_:b0" "" ].

(** An [ADD_TASK] action that carries a [task_id] of its own. *)
Definition add_with_task_id : pydict :=
  dict [("type", PStr ADD_TASK); ("name", PStr FETCH_HTTP_NODE);
        ("task_id", PInt 7)].

Definition resolve_action (task_id : Z) : pydict :=
  dict [("type", PStr RESOLVE_TASK); ("task_id", PInt task_id);
        ("success", PBool true); ("result", PStr "ok")].

Definition update_action (task_id : Z) (key : string) (value : pyval) : pydict :=
  dict [("type", PStr UPDATE_TASK); ("task_id", PInt task_id); (key, value)].

(** ** Properties of the handlers, as the specification states them *)

(** The property named by the task is absent from the node: [node[prop_name]]
    raises [KeyError]. *)
Definition property_absent (task_meta node : pydict) : Prop :=
  getitem_val (get "prop_name" task_meta) node = Raise KeyError.

(** The declared type of the node equals no element of
    [OBClasses.ALL_CLASSES]. *)
Definition undeclared_class (node : pydict) : Prop :=
  ∀ ob_class, ob_class ∈ ALL_CLASSES → get "type" node ≠ PStr ob_class.

(** The outcome of [assertion_timestamp_checks] does not depend on the
    reading of the clock. *)
Definition clock_independent `{lib : Library} (state : engine_state)
    (task_meta : pydict) : Prop :=
  ∀ now1 now2,
    assertion_timestamp_checks now1 state task_meta
    = assertion_timestamp_checks now2 state task_meta.

(** Two readings of the clock compare the same way with the instants of the
    assertion's [issuedOn] and [expires]. *)
Definition same_side `{lib : Library} (now1 now2 : Z) (state : engine_state)
    (task_meta : pydict) : Prop :=
  ∀ node d,
    get_node_by_id state (get "node_id" task_meta) = Ok node →
    parse_datetime (get "issuedOn" node) = Ok d
    ∨ parse_datetime (get "expires" node) = Ok d →
    Z.ltb now1 (instant d) = Z.ltb now2 (instant d)
    ∧ Z.ltb (instant d) now1 = Z.ltb (instant d) now2.

(** A validator spec of the tables: it has no [task_type] when it has a
    [prop_type]. *)
Definition property_or_task_spec (validator : pydict) : bool :=
  match validator !! "prop_type", validator !! "task_type" with
  | Some _, Some _ => false
  | _, _ => true
  end.

(** ** A sample library and sample documents *)

Definition render (v : pyval) : string :=
  match v with
  | PNone => "None"
  | PBool true => "True"
  | PBool false => "False"
  | PInt n => pretty n
  | PStr s => s
  | PList _ => "[...]"
  | PDict _ => "{...}"
  | PFunc name => "<function " +:+ name +:+ ">"
  end.

Definition sample_is_url (v : pyval) : bool :=
  match v with
  | PStr s => String.prefix "http://" s || String.prefix "https://" s
  | _ => false
  end.

Definition sample_is_iri (v : pyval) : bool :=
  sample_is_url v ||
  match v with
  | PStr s => String.prefix "_:b" s || String.prefix "urn:uuid:" s
  | _ => false
  end.

(** A parser that knows two timestamps, with their instants in seconds
    since the epoch. *)
Definition sample_parse_datetime (v : pyval) : result datetime :=
  match v with
  | PStr s =>
      if String.eqb s "2018-01-01T00:00:00Z"
      then Ok {| instant := 1514764800; aware := true |}
      else if String.eqb s "2019-01-01T00:00:00Z"
      then Ok {| instant := 1546300800; aware := true |}
      else Raise ValueError
  | _ => Raise TypeError
  end.

Definition sample_library : Library := {|
  is_iri := sample_is_iri;
  is_url := sample_is_url;
  abbreviate_value := render;
  fmt := render;
  rfc3986_is_valid_uri := λ _, Ok true;
  re_match := λ _ _, false;
  re_match_ignorecase := λ _ _, false;
  parse_datetime := sample_parse_datetime;
  fmt_datetime := λ d, pretty (instant d);
  jsonld_expand_type := λ s, Ok (PStr ("https://w3id.org/openbadges#" +:+ s))
|}.

(** A BadgeClass without [name], a Criteria node without [type], an
    Evidence node whose narrative is a number, a node of a class that is not
    an Open Badges class, and an Assertion. *)
Definition sample_graph : list pydict :=
  [ dict [("id", PStr "http://e/bc1"); ("type", PStr "BadgeClass");
          ("description", PStr "A badge")];
    dict [("id", PStr "criteria-id"); ("narrative", PStr "Do the work.")];
    dict [("id", PStr "_:b2"); ("type", PStr "Evidence"); ("narrative", PInt 5)];
    dict [("id", PStr "http://e/x"); ("type", PStr "Spaceship")];
    dict [("id", PStr "http://e/a1"); ("type", PStr "Assertion");
          ("issuedOn", PStr "2018-01-01T00:00:00Z")] ].

Definition sample_state : engine_state :=
  {| graph := sample_graph; tasks := [] |}.

Definition property_task (node_id prop_name prop_type : string) (required : bool)
  : pydict :=
  dict [("node_id", PStr node_id); ("prop_name", PStr prop_name);
        ("prop_type", PStr prop_type); ("required", PBool required)].

Definition criteria_type_task : pydict :=
  dict [("node_id", PStr "criteria-id"); ("node_class", PStr Criteria);
        ("prop_name", PStr "type"); ("prop_type", PStr RDF_TYPE);
        ("many", PBool true); ("required", PBool false);
        ("default", PStr Criteria)].

Definition node_task (node_id : string) : pydict :=
  dict [("node_id", PStr node_id)].

(** ** Further properties of the queue *)

(** No task of kind [VALIDATE_EXPECTED_NODE_CLASS] has an earlier task with
    its [name] and [node_id], and no task of kind [VALIDATE_PROPERTY] or
    [VALIDATE_RDF_TYPE_PROPERTY] has an earlier task with its [node_id] and
    [prop_name]. *)
Definition no_earlier_duplicate (state : list pydict) : Prop :=
  ∀ i j ti tj, (i < j)%nat → state !! i = Some ti → state !! j = Some tj →
    (get "name" tj = PStr VALIDATE_EXPECTED_NODE_CLASS →
     same_name_and_node tj ti = false) ∧
    (get "name" tj = PStr VALIDATE_PROPERTY
     ∨ get "name" tj = PStr VALIDATE_RDF_TYPE_PROPERTY →
     same_node_and_prop tj ti = false).

(** An action the engine applies to the queue while it validates: a plain
    [ADD_TASK], or a [RESOLVE_TASK]. *)
Definition engine_action (action : pydict) : Prop :=
  plain_add_task action ∨ get "type" action = PStr RESOLVE_TASK.

(** ** Further sample documents *)

(** A validator spec of the tables has no [type] and no [name] key, which
    would replace those of the [ADD_TASK] action built from it. *)
Definition spec_keeps_action_header (validator : pydict) : bool :=
  match validator !! "type", validator !! "name" with
  | None, None => true
  | _, _ => false
  end.

(** The members of [OBClasses.ALL_CLASSES] without a table in
    [ClassValidators]. *)
Definition classes_without_table : list string :=
  [ CryptographicKey; Extension; RevocationList; VerificationObject ].

(** An Assertion with its recipient and verification nodes, and an
    IdentityObject whose identity is a number. *)
Definition award_graph : list pydict :=
  [ dict [("id", PStr "http://e/a1"); ("type", PStr "Assertion");
          ("recipient", PStr "_:b0"); ("verification", PStr "_:b1");
          ("issuedOn", PStr "2018-01-01T00:00:00Z");
          ("expires", PStr "2019-01-01T00:00:00Z")];
    dict [("id", PStr "_:b0"); ("type", PStr "url");
          ("identity", PStr "http://e/me"); ("hashed", PBool false)];
    dict [("id", PStr "_:b1"); ("type", PStr "HostedBadge")];
    dict [("id", PStr "_:b4"); ("type", PStr "url");
          ("identity", PInt 5); ("hashed", PBool false)];
    dict [("id", PStr "http://e/k1"); ("type", PStr CryptographicKey)] ].

Definition award_state : engine_state :=
  {| graph := award_graph; tasks := [] |}.

Definition recipient_task : pydict :=
  dict [("node_id", PStr "http://e/a1"); ("node_class", PStr Assertion);
        ("prop_name", PStr "recipient"); ("prop_type", PStr ID);
        ("expected_class", PStr IdentityObject); ("required", PBool true)].

Definition assertion_type_task : pydict :=
  dict [("node_id", PStr "http://e/a1"); ("node_class", PStr Assertion);
        ("prop_name", PStr "type"); ("prop_type", PStr RDF_TYPE);
        ("required", PBool true); ("many", PBool true);
        ("must_contain_one", str_list ["Assertion"])].

Definition expected_class_task (node_id class_name : string) : pydict :=
  dict [("node_id", PStr node_id); ("expected_class", PStr class_name)].

(** ** The extension task ([tasks/extensions.py]) *)

(** What [validate_extension_node] calls outside the sources at hand: the
    keys of the extension registry [ALL_KNOWN_EXTENSIONS], [get_node_by_path]
    of [state.py], [list_of] of [utils.py], and
    [_validate_single_extension], whose body is calls into the registry,
    [json], [pyld] and [jsonschema]. *)
Class ExtensionLibrary : Type := {
  (* [ALL_KNOWN_EXTENSIONS.keys()] *)
  known_extension_types : list string;
  (* [get_node_by_path(state, node_path)] *)
  get_node_by_path : engine_state → pyval → result pydict;
  (* [list_of(value)] *)
  list_of : pyval → result (list pyval);
  (* [_validate_single_extension(node, extension_type, node_json=node_json)] *)
  _validate_single_extension : pydict → pyval → pyval → result outcome
}.

Section ExtensionHandler.
Context `{lib : Library} `{ext : ExtensionLibrary}.

(** The first [try] of [validate_extension_node]: the node, its id, its
    types and the serialized node of the task. *)
Definition extension_prerequisites (state : engine_state) (task_meta : pydict)
  : result (pyval * pydict * list pyval * pyval) :=
  '(node_id, node) ←
    (if py_truthy (get "node_id" task_meta) then
       node_id ← getitem "node_id" task_meta;
       node ← get_node_by_id state node_id;
       Ok (node_id, node)
     else
       node_path ← getitem "node_path" task_meta;
       node ← get_node_by_path state node_path;
       node_id ← getitem "id" node;
       Ok (node_id, node));
  declared ← getitem "type" node;
  node_type ← list_of declared;
  Ok (node_id, node, node_type, get "node_json" task_meta).

(** The task for one extension type, as the list comprehension builds it. *)
Definition extension_task (node_id node_json type_to_test : pyval) : pydict :=
  add_task (PStr VALIDATE_EXTENSION_NODE)
    (<["node_id" := node_id]>
       (<["node_json" := node_json]> {["type_to_test" := type_to_test]})).

Definition validate_extension_node (state : engine_state) (task_meta : pydict)
  : result outcome :=
  match extension_prerequisites state task_meta with
  | Raise KeyError | Raise ValueError | Raise IndexError | Raise TypeError =>
      Raise TaskPrerequisitesError
  | Raise e => Raise e
  | Ok (node_id, node, node_type, node_json) =>
      let types_to_test :=
        match task_meta !! "type_to_test" with
        | Some t => [t]
        | None =>
            PStr <$> List.filter (λ t, py_in (PStr t) node_type)
                                 known_extension_types
        end in
      match types_to_test with
      | [] =>
          Ok (task_result false "Could not determine extension type to test" [])
      | [extension_type] =>
          _validate_single_extension node extension_type node_json
      | _ =>
          Ok (task_result true
                ("Multiple extension types "
                 +:+ abbreviate_value (PList types_to_test)
                 +:+ " discovered in node " +:+ fmt node_id)
                (extension_task node_id node_json <$> types_to_test))
      end
  end.

End ExtensionHandler.

(** A registry of two extensions, for the sample documents. *)
Definition sample_extensions : ExtensionLibrary := {|
  known_extension_types := ["extensions:ApplyLink"; "extensions:ExampleExtension"];
  get_node_by_path := λ _ _, Raise IndexError;
  list_of := λ v, Ok match v with PNone => [] | PList l => l | _ => [v] end;
  _validate_single_extension := λ node extension_type _,
    Ok (true, "Extension " +:+ render extension_type +:+ " validated on node "
              +:+ render (get "id" node), [])
|}.

Definition extended_graph : list pydict :=
  [ dict [("id", PStr "http://e/bc2");
          ("type", PList [PStr "BadgeClass"; PStr "extensions:ExampleExtension";
                          PStr "extensions:ApplyLink"])];
    dict [("id", PStr "http://e/bc3")] ].

Definition extended_state : engine_state :=
  {| graph := extended_graph; tasks := [] |}.

(** * Theorems *)

(** ** The reducer: deduplication *)

Lemma py_eq_str (v : pyval) (s : string) : py_eq v (PStr s) = true ↔ v = PStr s.
Proof.
  destruct v; simpl; split; try discriminate; intros H.
  - apply String.eqb_eq in H. by subst.
  - injection H as ->. apply String.eqb_refl.
Qed.

Lemma index0_filter {A : Type} (P : A → Prop) `{∀ x, Decision (P x)} (l : list A) :
  (∃ x, index0 (filter P l) = Ok x) ↔ ∃ t, t ∈ l ∧ P t.
Proof.
  split.
  - intros [x Hx]. exists x.
    destruct (filter P l) as [|y rest] eqn:E; simpl in Hx; [discriminate|].
    injection Hx as ->.
    assert (Hf : x ∈ filter P l) by (rewrite E; left).
    apply list_elem_of_filter in Hf. tauto.
  - intros (t & Hin & HP).
    assert (Hf : t ∈ filter P l) by by apply list_elem_of_filter.
    destruct (filter P l) as [|y rest]; [by apply elem_of_nil in Hf|].
    by exists y.
Qed.

Lemma index0_true {A : Type} (l : list A) :
  match index0 l with Ok _ => true | Raise _ => false end = true
  ↔ ∃ x, index0 l = Ok x.
Proof.
  destruct l; simpl; split; [discriminate | intros [? ?]; discriminate | eauto | done].
Qed.

Lemma task_to_add_exists_iff (state : list pydict) (action : pydict) :
  _task_to_add_exists state action = true ↔ is_duplicate state action.
Proof.
  unfold _task_to_add_exists, is_duplicate, same, py_in; simpl.
  destruct (py_eq (get "name" action) (PStr VALIDATE_EXPECTED_NODE_CLASS)) eqn:E1.
  - apply py_eq_str in E1. rewrite index0_true, index0_filter.
    unfold same_name_and_node. setoid_rewrite andb_true_iff.
    split.
    + intros (t & ? & ? & ?). left. eauto 10.
    + intros [[_ (t & ? & ? & ?)] | [[H | H] _]]; [eauto | |];
        rewrite E1 in H; discriminate.
  - assert (N1 : get "name" action ≠ PStr VALIDATE_EXPECTED_NODE_CLASS).
    { intros H. apply py_eq_str in H. congruence. }
    destruct (py_eq (get "name" action) (PStr VALIDATE_PROPERTY)) eqn:E2; simpl.
    + apply py_eq_str in E2. rewrite index0_true, index0_filter.
      unfold same_node_and_prop. setoid_rewrite andb_true_iff.
      split; [intros (t & ? & ? & ?); right; eauto 10|].
      intros [[? _] | [_ (t & ? & ? & ?)]]; [done | eauto].
    + destruct (py_eq (get "name" action) (PStr VALIDATE_RDF_TYPE_PROPERTY)) eqn:E3; simpl.
      * apply py_eq_str in E3. rewrite index0_true, index0_filter.
        unfold same_node_and_prop. setoid_rewrite andb_true_iff.
        split; [intros (t & ? & ? & ?); right; eauto 10|].
        intros [[? _] | [_ (t & ? & ? & ?)]]; [done | eauto].
      * split; [discriminate|].
        intros [[? _] | [[H | H] _]]; [done | |];
          apply py_eq_str in H; congruence.
Qed.



(** ** The reducer: task ids *)

Lemma getitem_Some (k : string) (d : pydict) (v : pyval) :
  d !! k = Some v → getitem k d = Ok v.
Proof. unfold getitem. by intros ->. Qed.

Lemma numbered_last (state : list pydict) (t : pydict) :
  numbered_from_1 state → last state = Some t →
  t !! "task_id" = Some (PInt (Z.of_nat (length state))).
Proof.
  unfold numbered_from_1. intros Hn Hl.
  destruct (last_Some state t) as [[front ->] _]; [done|].
  rewrite length_app, fmap_app in Hn. simpl in Hn.
  rewrite Nat.add_1_r, seq_S, fmap_app in Hn. simpl in Hn.
  apply app_inj_2 in Hn as [_ Hn]; [|done].
  injection Hn as Hn. unfold get in Hn.
  rewrite length_app. simpl. rewrite Nat.add_1_r.
  destruct (t !! "task_id"); simpl in Hn; by subst.
Qed.

Lemma task_counter_numbered (state : list pydict) :
  numbered_from_1 state →
  task_counter state = Ok (PInt (Z.of_nat (length state) + 1)).
Proof.
  intros Hn. unfold task_counter.
  destruct (last state) as [t|] eqn:Hl.
  - rewrite (getitem_Some _ _ _ (numbered_last _ _ Hn Hl)). reflexivity.
  - apply last_None in Hl. by subst.
Qed.
Lemma max_task_id_seq (state : list pydict) (k : nat) :
  get "task_id" <$> state = (λ i : nat, PInt (Z.of_nat i)) <$> seq k (length state) →
  max_task_id state
  = match state with [] => 0 | _ => Z.of_nat (k + length state) - 1 end.
Proof.
  revert k. induction state as [|t rest IH]; intros k Hn; [done|].
  simpl in Hn. injection Hn as Ht Hrest.
  unfold max_task_id in *. simpl. rewrite Ht.
  rewrite (IH (S k) Hrest). destruct rest; simpl length; lia.
Qed.

Lemma max_task_id_numbered (state : list pydict) :
  numbered_from_1 state → max_task_id state = Z.of_nat (length state).
Proof.
  intros Hn. rewrite (max_task_id_seq state 1 Hn). destruct state; simpl length; lia.
Qed.

Lemma new_task_lookup_id (counter : pyval) (action : pydict) :
  action !! "task_id" = None →
  new_task counter action !! "task_id" = Some counter.
Proof.
  intros Ha. unfold new_task.
  rewrite lookup_union_r; [by rewrite lookup_insert_eq|].
  by rewrite lookup_delete_ne.
Qed.

Lemma new_task_lookup_complete (counter : pyval) (action : pydict) :
  action !! "complete" = None →
  new_task counter action !! "complete" = Some (PBool false).
Proof.
  intros Ha. unfold new_task.
  rewrite lookup_union_r; [|by rewrite lookup_delete_ne].
  rewrite lookup_insert_ne; [|done]. by rewrite lookup_singleton_eq.
Qed.

Lemma numbered_snoc (state : list pydict) (t : pydict) :
  numbered_from_1 state →
  t !! "task_id" = Some (PInt (Z.of_nat (length state) + 1)) →
  numbered_from_1 (state ++ [t]).
Proof.
  unfold numbered_from_1. intros Hn Ht.
  rewrite length_app, fmap_app. simpl.
  rewrite Nat.add_1_r, seq_S, fmap_app, Hn. simpl.
  unfold get. rewrite Ht. simpl. do 3 f_equal. lia.
Qed.

Lemma add_task_step (state : list pydict) (action : pydict) :
  numbered_from_1 state → plain_add_task action →
  ∃ state', task_reducer (Some state) action = Ok state'
            ∧ appended_next state action state' ∧ numbered_from_1 state'.
Proof.
  intros Hn (Hadd & Hid & Hc).
  unfold task_reducer. simpl. rewrite (task_counter_numbered _ Hn). simpl.
  unfold is_add_task in Hadd. rewrite Hadd. simpl.
  destruct (_task_to_add_exists state action) eqn:Hexists; simpl.
  - exists state. repeat split; [|done].
    left. split; [by apply task_to_add_exists_iff | done].
  - eexists. split; [reflexivity|]. split.
    + right. split.
      { intros Hdup. apply task_to_add_exists_iff in Hdup. congruence. }
      eexists. split; [reflexivity|].
      rewrite (max_task_id_numbered _ Hn).
      split; [by apply new_task_lookup_id|].
      split; [by apply new_task_lookup_complete|].
      intros k v Hk Hv. unfold new_task. apply lookup_union_Some_l.
      by rewrite lookup_delete_ne.
    + apply numbered_snoc; [done|]. by apply new_task_lookup_id.
Qed.

Lemma add_task_run (state : list pydict) (actions : list pydict) :
  numbered_from_1 state → Forall plain_add_task actions →
  (∃ final, run state actions = Ok final ∧ numbered_from_1 final) ∧
  ∀ before a after, actions = (before ++ a :: after)%list →
    ∃ s s', run state before = Ok s
            ∧ task_reducer (Some s) a = Ok s'
            ∧ appended_next s a s'.
Proof.
  intros Hn Hall. revert state Hn.
  induction Hall as [|a0 rest Ha0 Hrest IH]; intros state Hn.
  - split; [by exists state|]. intros [|] ? ? ?; discriminate.
  - destruct (add_task_step state a0 Hn Ha0) as (s1 & Hstep & Happ & Hn1).
    destruct (IH s1 Hn1) as [(final & Hrun & Hfin) Hsteps].
    split.
    + exists final. simpl. rewrite Hstep. simpl. done.
    + intros [|b before] a after Heq; simpl in Heq; injection Heq as -> ->.
      * exists state, s1. done.
      * destruct (Hsteps before a after eq_refl) as (s & s' & ? & ? & ?).
        exists s, s'. simpl. rewrite Hstep. simpl. done.
Qed.

(** C2, amended: from the empty queue, for every sequence of [ADD_TASK]
    actions whose payloads carry no [task_id] and no [complete] key, the
    run returns; each step returns the queue as it is when the action is a
    duplicate, and otherwise appends exactly one task, which holds the
    payload, [task_id = max(existing) + 1] (1 on the empty queue) and
    [complete = False]; the task ids of the result are 1, 2, 3, ... *)
Theorem plain_add_tasks_number_from_1 (actions : list pydict) :
  Forall plain_add_task actions → add_task_numbering actions.
Proof.
  intros Hall. apply add_task_run; [reflexivity | done].
Qed.

Lemma plain_add_tasks_number_from_1_witness :
  add_task_numbering
    [ sample_add VALIDATE_PROPERTY "http://e/bc1" "name";
      sample_add VALIDATE_PROPERTY "http://e/bc1" "name";
      sample_add VALIDATE_PROPERTY "http://e/bc1" "description" ].
Proof.
  apply plain_add_tasks_number_from_1.
  repeat constructor.
Defined.

(** C2 as stated fails: every payload key but [type] is copied over the new
    task, so an [ADD_TASK] action that carries [task_id = 7] yields a first
    task numbered 7. *)
Lemma add_task_payload_overrides_task_id :
  Forall is_add_task [add_with_task_id]
  ∧ (∃ t, run [] [add_with_task_id] = Ok [t]
          ∧ t !! "task_id" = Some (PInt 7))
  ∧ ¬ add_task_numbering [add_with_task_id].
Proof.
  split; [by repeat constructor|].
  split; [eexists; split; reflexivity|].
  intros [(final & Hrun & Hnum) _].
  vm_compute in Hrun. injection Hrun as <-.
  vm_compute in Hnum. discriminate.
Qed.
(** ** The reducer: unknown task ids *)

Lemma tasks_with_id_unknown (state : list pydict) (action : pydict) :
  unknown_task_id state action → tasks_with_id state action = Ok [].
Proof.
  intros (aid & Ha & Hall).
  induction Hall as [|t rest (tid & Ht & Hne) _ IH]; [done|].
  simpl. rewrite (getitem_Some _ _ _ Ht), (getitem_Some _ _ _ Ha). simpl.
  rewrite IH. simpl. by rewrite Hne.
Qed.

(** C4: for a [RESOLVE_TASK] or [UPDATE_TASK] action whose [task_id]
    matches no task of the queue, the reducer does not return the state: the
    empty comprehension is indexed at 0 and the [IndexError] is not the
    [KeyError] the handler catches. *)
Theorem unknown_task_id_raises_IndexError (state : list pydict) (action : pydict) :
  get "type" action = PStr RESOLVE_TASK ∨ get "type" action = PStr UPDATE_TASK →
  counter_defined state → unknown_task_id state action →
  task_reducer (Some state) action = Raise IndexError.
Proof.
  intros Htype [c Hc] Hunknown.
  unfold task_reducer. simpl. rewrite Hc. simpl.
  unfold with_task. rewrite (tasks_with_id_unknown _ _ Hunknown). simpl.
  by destruct Htype as [-> | ->].
Qed.

Lemma unknown_task_id_raises_IndexError_witness :
  task_reducer (Some sample_queue) (resolve_action 3) = Raise IndexError.
Proof.
  apply unknown_task_id_raises_IndexError.
  - by left.
  - by exists (PInt 3).
  - exists (PInt 3). split; [done|].
    repeat constructor; eexists; (split; [reflexivity | reflexivity]).
Defined.

(** ** The reducer: completion *)

Lemma tasks_with_id_first (state : list pydict) (action : pydict)
    (found : list pydict) (task : pydict) :
  tasks_with_id state action = Ok found → index0 found = Ok task →
  ∃ j tid aid, state !! j = Some task ∧ task !! "task_id" = Some tid
               ∧ action !! "task_id" = Some aid ∧ py_eq tid aid = true.
Proof.
  revert found. induction state as [|t rest IH]; intros found Hf H0.
  - simpl in Hf. injection Hf as <-. discriminate.
  - simpl in Hf. unfold getitem in Hf.
    destruct (t !! "task_id") as [tid|] eqn:Ht; [|discriminate].
    destruct (action !! "task_id") as [aid|] eqn:Ha; [|discriminate].
    simpl in Hf. destruct (tasks_with_id rest action) as [found'|] eqn:Hrest;
      [|discriminate].
    simpl in Hf. injection Hf as <-.
    destruct (py_eq tid aid) eqn:E.
    + simpl in H0. injection H0 as <-. exists 0%nat, tid, aid. done.
    + destruct (IH found' eq_refl H0) as (j & tid' & aid' & ? & ? & ? & ?).
      exists (S j), tid', aid'. done.
Qed.

Lemma py_eq_int_through (n m : Z) (aid : pyval) :
  py_eq (PInt n) aid = true → py_eq aid (PInt m) = true → n = m.
Proof.
  destruct aid; simpl; try discriminate; lia.
Qed.

Lemma distinct_ids_lookup (state : list pydict) (i j : nat) (ti tj : pydict)
    (aid : pyval) :
  distinct_ids state → state !! i = Some ti → state !! j = Some tj →
  py_eq (get "task_id" ti) aid = true → py_eq aid (get "task_id" tj) = true →
  i = j.
Proof.
  intros (ids & Hnd & Hids) Hi Hj Ei Ej.
  assert (Hi' : (get "task_id" <$> state) !! i = Some (get "task_id" ti))
    by by rewrite list_lookup_fmap, Hi.
  assert (Hj' : (get "task_id" <$> state) !! j = Some (get "task_id" tj))
    by by rewrite list_lookup_fmap, Hj.
  rewrite Hids, list_lookup_fmap in Hi', Hj'.
  destruct (ids !! i) as [n|] eqn:Hn; [|discriminate].
  destruct (ids !! j) as [m|] eqn:Hm; [|discriminate].
  simpl in Hi', Hj'. injection Hi' as Hi'. injection Hj' as Hj'.
  rewrite <- Hi' in Ei. rewrite <- Hj' in Ej.
  rewrite (py_eq_int_through _ _ _ Ei Ej) in Hn.
  by eapply NoDup_lookup.
Qed.

Lemma get_of_lookup (k : string) (d : pydict) (v : pyval) :
  d !! k = Some v → get k d = v.
Proof. unfold get. by intros ->. Qed.

Lemma update_update_keeps (task action : pydict) (k : string) :
  action !! k = None → update_update task action !! k = task !! k.
Proof.
  intros Hk. unfold update_update. apply lookup_union_r.
  destruct (decide (k = "type")) as [->|]; [apply lookup_delete_eq|].
  rewrite lookup_delete_ne; [|done].
  destruct (decide (k = "task_id")) as [->|]; [apply lookup_delete_eq|].
  by rewrite lookup_delete_ne.
Qed.

Lemma new_task_lacks (counter : pyval) (action : pydict) (k : string) :
  action !! k = None → k ≠ "task_id" → k ≠ "complete" →
  new_task counter action !! k = None.
Proof.
  intros Hk ? ?. unfold new_task. apply lookup_union_None. split.
  - destruct (decide (k = "type")) as [->|]; [apply lookup_delete_eq|].
    by rewrite lookup_delete_ne.
  - rewrite lookup_insert_ne; [|done]. by rewrite lookup_singleton_ne.
Qed.
Lemma unchanged_keeps (state : list pydict) :
  complete_kept state state ∧ outcome_with_completion state state.
Proof.
  split; [|split].
  - intros i t Hi Hc. by exists t.
  - intros i t t' Hi Hi' [H | H]; congruence.
  - intros i t' Hi Hi'. congruence.
Qed.

Lemma updated_item_lookup (state : list pydict) (aid : pyval) (update : pydict)
    (i : nat) :
  _new_state_with_updated_item state aid update !! i
  = (λ t, if negb (py_eq aid (get "task_id" t)) then t else update)
      <$> state !! i.
Proof. unfold _new_state_with_updated_item. apply list_lookup_fmap. Qed.

Lemma with_task_cases (state : list pydict) (action : pydict)
    (k : pydict → result (list pydict)) (state' : list pydict) :
  with_task state action k = Ok state' →
  state' = state ∨
  ∃ task j tid aid, state !! j = Some task ∧ task !! "task_id" = Some tid
                    ∧ action !! "task_id" = Some aid ∧ py_eq tid aid = true
                    ∧ k task = Ok state'.
Proof.
  unfold with_task. intros H.
  destruct (tasks_with_id state action) as [found|e] eqn:Hf; simpl in H.
  - destruct (index0 found) as [task|e] eqn:H0.
    + destruct (tasks_with_id_first _ _ _ _ Hf H0)
        as (j & tid & aid & Hj & Ht & Ha & Heq).
      right. exists task, j, tid, aid. by simpl in H.
    + destruct e; try discriminate. injection H as <-. by left.
  - destruct e; try discriminate. injection H as <-. by left.
Qed.

Lemma resolve_step_keeps (state : list pydict) (aid : pyval)
    (task action : pydict) :
  let state' := _new_state_with_updated_item state aid (resolve_update task action) in
  complete_kept state state' ∧ outcome_with_completion state state'.
Proof.
  intros state'.
  assert (Hup : resolve_update task action !! "complete" = Some (PBool true))
    by apply lookup_insert_eq.
  split; [|split].
  - intros i t Hi Hc. unfold state'. rewrite updated_item_lookup, Hi. simpl.
    destruct (negb _); eauto.
  - intros i t t' Hi Hi' Hch. unfold state' in Hi'.
    rewrite updated_item_lookup, Hi in Hi'. simpl in Hi'.
    destruct (negb _); injection Hi' as <-; [|done].
    destruct Hch; congruence.
  - intros i t' Hi Hi'. unfold state' in Hi'.
    rewrite updated_item_lookup, Hi in Hi'. discriminate.
Qed.

Lemma update_step_same (state : list pydict) (aid tid : pyval)
    (task action : pydict) (j i : nat) (t t' : pydict) (k : string) :
  distinct_ids state → state !! j = Some task →
  task !! "task_id" = Some tid → py_eq tid aid = true →
  state !! i = Some t →
  _new_state_with_updated_item state aid (update_update task action) !! i
  = Some t' →
  action !! k = None → t' !! k = t !! k.
Proof.
  intros Hd Hj Htid Heq Hi Hi' Hk.
  rewrite updated_item_lookup, Hi in Hi'. simpl in Hi'.
  destruct (py_eq aid (get "task_id" t)) eqn:E; simpl in Hi';
    injection Hi' as <-; [|done].
  rewrite <- (get_of_lookup _ _ _ Htid) in Heq.
  assert (j = i) as -> by by eapply distinct_ids_lookup.
  rewrite Hi in Hj. injection Hj as ->.
  by apply update_update_keeps.
Qed.

Lemma update_step_keeps_complete (state : list pydict) (aid tid : pyval)
    (task action : pydict) (j : nat) :
  distinct_ids state → state !! j = Some task →
  task !! "task_id" = Some tid → py_eq tid aid = true →
  action !! "complete" = None →
  complete_kept state
    (_new_state_with_updated_item state aid (update_update task action)).
Proof.
  intros Hd Hj Htid Heq Hc i t Hi Hcomp.
  destruct (_new_state_with_updated_item state aid (update_update task action) !! i)
    as [t'|] eqn:Hi'.
  - exists t'. split; [done|].
    by rewrite (update_step_same _ _ _ _ _ _ _ _ _ _ Hd Hj Htid Heq Hi Hi' Hc).
  - rewrite updated_item_lookup, Hi in Hi'. discriminate.
Qed.

Lemma update_step_keeps_outcome (state : list pydict) (aid tid : pyval)
    (task action : pydict) (j : nat) :
  distinct_ids state → state !! j = Some task →
  task !! "task_id" = Some tid → py_eq tid aid = true →
  action !! "success" = None → action !! "result" = None →
  outcome_with_completion state
    (_new_state_with_updated_item state aid (update_update task action)).
Proof.
  intros Hd Hj Htid Heq Hs Hr. split.
  - intros i t t' Hi Hi' [H | H]; exfalso; apply H;
      by apply (update_step_same _ _ _ _ _ _ _ _ _ _ Hd Hj Htid Heq Hi Hi').
  - intros i t' Hi Hi'.
    rewrite updated_item_lookup, Hi in Hi'. discriminate.
Qed.

Lemma add_step_keeps_complete (state : list pydict) (t : pydict) :
  complete_kept state (state ++ [t]).
Proof.
  intros i t0 Hi Hc. exists t0. split; [|done]. by apply lookup_app_l_Some.
Qed.

Lemma add_step_keeps_outcome (state : list pydict) (counter : pyval)
    (action : pydict) :
  action !! "success" = None → action !! "result" = None →
  outcome_with_completion state (state ++ [new_task counter action]).
Proof.
  intros Hs Hr. split.
  - intros i t t' Hi Hi' Hch.
    rewrite (lookup_app_l_Some _ _ _ _ Hi) in Hi'. injection Hi' as <-.
    destruct Hch; congruence.
  - intros i t' Hi Hi'.
    apply lookup_ge_None in Hi.
    rewrite lookup_app_r in Hi'; [|done].
    destruct (i - length state)%nat; [|by destruct n].
    injection Hi' as <-. split; by apply new_task_lacks.
Qed.

(** C3, amended: on a queue whose task ids are distinct integers, a step of
    the reducer keeps every complete task complete unless the action is an
    [UPDATE_TASK] whose payload carries the key [complete]; and for an
    action that is a [RESOLVE_TASK], or whose payload has neither [success]
    nor [result], a task whose [success] or [result] changed is complete
    after the step, and a task the step added has neither. *)
Theorem complete_is_monotonic (state : list pydict) (action : pydict)
    (state' : list pydict) :
  distinct_ids state →
  task_reducer (Some state) action = Ok state' →
  (keeps_complete action → complete_kept state state') ∧
  (keeps_outcome action → outcome_with_completion state state').
Proof.
  intros Hd Hred. unfold task_reducer in Hred. simpl in Hred.
  destruct (task_counter state) as [counter|]; [|discriminate]. simpl in Hred.
  destruct (py_eq (get "type" action) (PStr ADD_TASK)
            && negb (_task_to_add_exists state action)) eqn:Eadd.
  { injection Hred as <-.
    apply andb_true_iff in Eadd as [Eadd _]. apply py_eq_str in Eadd.
    split; [intros _; apply add_step_keeps_complete|].
    intros [Hk | [? ?]]; [|by apply add_step_keeps_outcome].
    rewrite Eadd in Hk. discriminate. }
  destruct (py_eq (get "type" action) (PStr RESOLVE_TASK)) eqn:Eres.
  { apply with_task_cases in Hred
      as [-> | (task & j & tid & aid & _ & _ & Ha & _ & Hred)].
    { split; intros _; apply unchanged_keeps. }
    rewrite (getitem_Some _ _ _ Ha) in Hred. simpl in Hred. injection Hred as <-.
    split; intros _; apply resolve_step_keeps. }
  destruct (py_eq (get "type" action) (PStr UPDATE_TASK)) eqn:Eupd.
  { apply py_eq_str in Eupd.
    apply with_task_cases in Hred
      as [-> | (task & j & tid & aid & Hj & Ht & Ha & Heq & Hred)].
    { split; intros _; apply unchanged_keeps. }
    rewrite (getitem_Some _ _ _ Ha) in Hred. simpl in Hred. injection Hred as <-.
    split.
    - intros [Hk | Hk]; [done|]. by eapply update_step_keeps_complete.
    - intros [Hk | [? ?]]; [|by eapply update_step_keeps_outcome].
      rewrite Eupd in Hk. discriminate. }
  injection Hred as <-. split; intros _; apply unchanged_keeps.
Qed.

Lemma complete_is_monotonic_witness :
  ∃ state',
    task_reducer (Some sample_queue)
      (update_action 2 "expected_class" (PStr IdentityObject)) = Ok state'
    ∧ complete_kept sample_queue state'
    ∧ outcome_with_completion sample_queue state'.
Proof.
  eexists. split; [reflexivity|].
  assert (Hd : distinct_ids sample_queue).
  { exists [1; 2]. split; [|reflexivity].
    repeat constructor; rewrite ?elem_of_cons, ?elem_of_nil; intuition lia. }
  destruct (complete_is_monotonic sample_queue
              (update_action 2 "expected_class" (PStr IdentityObject)) _
              Hd eq_refl) as [Hcomplete Houtcome].
  split; [apply Hcomplete; by right | apply Houtcome; by right].
Defined.

(** C3 as stated fails: [UPDATE_TASK] copies every payload key but [type]
    and [task_id], so an [UPDATE_TASK] with [complete = False] returns a
    resolved task to incomplete. *)
Lemma update_task_clears_complete :
  ∃ queue queue' t t',
    run [] [sample_add VALIDATE_PROPERTY "http://e/bc1" "name"; resolve_action 1]
    = Ok queue
    ∧ task_reducer (Some queue) (update_action 1 "complete" (PBool false))
      = Ok queue'
    ∧ queue !! 0%nat = Some t ∧ t !! "complete" = Some (PBool true)
    ∧ queue' !! 0%nat = Some t' ∧ t' !! "complete" = Some (PBool false)
    ∧ ¬ complete_kept queue queue'.
Proof.
  do 4 eexists.
  split; [reflexivity|]. split; [reflexivity|].
  split; [reflexivity|]. split; [reflexivity|].
  split; [reflexivity|]. split; [reflexivity|].
  intros Hkept.
  destruct (Hkept 0%nat _ eq_refl eq_refl) as (t' & Ht' & Hc).
  injection Ht' as <-. discriminate.
Qed.

(** And an [UPDATE_TASK] with a [success] key sets [success] on a task that
    stays incomplete. *)
Lemma update_task_sets_success_alone :
  ∃ queue queue' t t',
    run [] [sample_add VALIDATE_PROPERTY "http://e/bc1" "name"] = Ok queue
    ∧ task_reducer (Some queue) (update_action 1 "success" (PBool true))
      = Ok queue'
    ∧ queue !! 0%nat = Some t ∧ t !! "success" = None
    ∧ queue' !! 0%nat = Some t' ∧ t' !! "success" = Some (PBool true)
    ∧ t' !! "complete" = Some (PBool false).
Proof.
  do 4 eexists. repeat (split; [reflexivity|]). reflexivity.
Qed.

(** ** The handlers *)

Section HandlerProperties.
Context `{lib : Library}.

(** C8: when the node of a [validate_property] task exists and the named
    property is absent from it, the task fails with the message
    "Required property <prop_name> not present in <node_class> <node_id>"
    if [required] is true, and succeeds with the message
    "Optional property <prop_name> not present in <node_class> <node_id>"
    if it is not; neither outcome carries an action. *)
Theorem absent_property_outcome (state : engine_state) (task_meta node : pydict) :
  get_node_by_id state (get "node_id" task_meta) = Ok node →
  property_absent task_meta node →
  let where_ :=
    fmt (get_or "node_class" (PStr "unknown type node") task_meta)
    +:+ " " +:+ fmt (get "node_id" task_meta) in
  (py_truthy (get "required" task_meta) = true →
   validate_property state task_meta
   = Ok (false,
         "Required property " +:+ fmt (get "prop_name" task_meta)
         +:+ " not present in " +:+ where_, [])) ∧
  (py_truthy (get "required" task_meta) = false →
   validate_property state task_meta
   = Ok (true,
         "Optional property " +:+ fmt (get "prop_name" task_meta)
         +:+ " not present in " +:+ where_, [])).
Proof.
  intros Hnode Habsent where_. unfold property_absent in Habsent.
  split; intros Hreq; unfold validate_property;
    rewrite Hnode; simpl; rewrite Habsent, Hreq; reflexivity.
Qed.

(** C9: when [validate_property] succeeds on a
    [validate_rdf_type_property] task, the node has no [type] and the task
    has a default (one the test [and default] accepts), the handler succeeds
    with the message of the property check and exactly one action,
    [PATCH_NODE(node_id, {type: default})]; this holds whatever
    [must_contain_one] is, which is not consulted. *)
Theorem missing_type_takes_default (state : engine_state)
    (task_meta node : pydict) (message : string) (actions : list pydict) :
  validate_property state task_meta = Ok (true, message, actions) →
  get_node_by_id state (get "node_id" task_meta) = Ok node →
  node !! "type" = None →
  py_truthy (get "default" task_meta) = true →
  validate_rdf_type_property state task_meta
  = Ok (true, message,
        [patch_node (get "node_id" task_meta)
           [("type", get "default" task_meta)]]).
Proof.
  intros Hprop Hnode Htype Hdefault. unfold validate_rdf_type_property.
  rewrite Hprop. simpl. rewrite Hnode. simpl.
  unfold get in *. rewrite Htype. simpl. rewrite Hdefault. reflexivity.
Qed.

Lemma detect_node_class_undeclared (node : pydict) :
  undeclared_class node → detect_node_class (get "type" node) = PNone.
Proof.
  intros Hun. unfold detect_node_class.
  destruct (List.find _ ALL_CLASSES) as [c|] eqn:Hfind; [|done].
  apply List.find_some in Hfind as [Hin Heq].
  apply py_eq_str in Heq. apply list_elem_of_In in Hin.
  by destruct (Hun c Hin).
Qed.

(** C7, amended: for a node whose declared type equals no element of
    [OBClasses.ALL_CLASSES], [detect_and_validate_node_class] takes
    [node_class] to be [None]; [_get_validation_actions(node_id, None)]
    raises [NotImplementedError] in the constructor of [ClassValidators],
    and so does the handler. *)
Theorem undeclared_class_raises (state : engine_state) (task_meta node : pydict) :
  get_node_by_id state (get "node_id" task_meta) = Ok node →
  undeclared_class node →
  detect_node_class (get "type" node) = PNone
  ∧ _get_validation_actions (get "node_id" task_meta) PNone
    = Raise NotImplementedError
  ∧ detect_and_validate_node_class state task_meta = Raise NotImplementedError.
Proof.
  intros Hnode Hun. split; [by apply detect_node_class_undeclared|].
  split; [reflexivity|].
  unfold detect_and_validate_node_class. rewrite Hnode. simpl.
  rewrite (detect_node_class_undeclared _ Hun). reflexivity.
Qed.

(** C5, amended: [assertion_timestamp_checks] is a function of the state,
    the task metadata and the reading of the clock.  Two invocations on the
    same state and metadata return the same outcome when their clock
    readings compare the same way with the instants of the assertion's
    [issuedOn] and [expires]. *)
Theorem timestamp_checks_read_the_clock (now1 now2 : Z) (state : engine_state)
    (task_meta : pydict) :
  same_side now1 now2 state task_meta →
  assertion_timestamp_checks now1 state task_meta
  = assertion_timestamp_checks now2 state task_meta.
Proof.
  intros Hside. unfold assertion_timestamp_checks, getitem.
  destruct (task_meta !! "node_id") as [node_id|] eqn:Hid; [|done]. simpl.
  assert (Hget : get "node_id" task_meta = node_id) by by apply get_of_lookup.
  destruct (get_node_by_id state node_id) as [node|] eqn:Hnode; [|done]. simpl.
  destruct (node !! "issuedOn") as [issued|] eqn:Hissued; [|done]. simpl.
  destruct (parse_datetime issued) as [issued_on|] eqn:Hparse; [|done]. simpl.
  rewrite <- Hget in Hnode. rewrite <- (get_of_lookup _ _ _ Hissued) in Hparse.
  destruct (Hside node issued_on Hnode (or_introl Hparse)) as [Hfuture _].
  unfold dt_lt. simpl. destruct (aware issued_on); simpl; [|done].
  rewrite Hfuture. destruct (Z.ltb now2 (instant issued_on)); [done|].
  destruct (py_truthy (get "expires" node)); [|done].
  destruct (parse_datetime (get "expires" node)) as [expires|] eqn:Hexp; [|done].
  simpl. destruct (Hside node expires Hnode (or_intror Hexp)) as [_ Hexpired].
  destruct (aware expires); simpl; [|done].
  rewrite Hexpired. reflexivity.
Qed.

(** C6: for every value the [MARKDOWN_TEXT] validator returns the function
    [_validate_text] itself, not the boolean [_validate_text(value)]; the
    function object is true, so [validate_property] accepts the narrative 5
    of the sample Evidence node as [MARKDOWN_TEXT]. *)
Theorem markdown_validator_returns_function :
  (∀ value, PrimitiveValueValidator (PStr MARKDOWN_TEXT) value
            = Ok (PFunc "_validate_text")) ∧
  (∀ value, _validate_text value = Ok (PBool (is_string value))) ∧
  ∃ message,
    validate_property sample_state
      (property_task "_:b2" "narrative" MARKDOWN_TEXT false)
    = Ok (true, message, []).
Proof.
  split; [done|]. split; [done|]. eexists. reflexivity.
Qed.

End HandlerProperties.

(** ** The class validator tables *)

Lemma validator_actions_prop_type (node_id node_class : pyval)
    (validator action : pydict) :
  action ∈ validator_actions node_id node_class validator →
  get "prop_type" action = get "prop_type" validator.
Proof.
  assert (Hadd : ∀ name, get "prop_type"
                   (add_task name (task_kwargs node_id node_class validator))
                 = get "prop_type" validator).
  { intros name. unfold get, add_task, task_kwargs. f_equal.
    destruct (validator !! "prop_type") as [v|] eqn:Hv.
    - apply lookup_union_Some_l. by rewrite !lookup_insert_ne.
    - rewrite lookup_union_r; by rewrite !lookup_insert_ne. }
  unfold validator_actions. intros Hin.
  apply elem_of_app in Hin as [Hin | Hin].
  - destruct (py_eq _ _); [|by apply elem_of_nil in Hin].
    apply list_elem_of_singleton in Hin as ->. apply Hadd.
  - destruct (py_in _ (PStr <$> PRIMITIVES)).
    + apply list_elem_of_singleton in Hin as ->. apply Hadd.
    + destruct (py_in _ _); [|by apply elem_of_nil in Hin].
      apply list_elem_of_singleton in Hin as ->. apply Hadd.
Qed.

Lemma validator_actions_data_uri_or_url (node_id node_class : pyval)
    (validator : pydict) :
  get "prop_type" validator = PStr DATA_URI_OR_URL →
  property_or_task_spec validator = true →
  validator_actions node_id node_class validator = [].
Proof.
  intros Htype Hspec. unfold validator_actions. rewrite Htype.
  unfold property_or_task_spec, get in *.
  destruct (validator !! "prop_type"); [|discriminate].
  destruct (validator !! "task_type"); [discriminate|]. reflexivity.
Qed.

Lemma tables_hold_property_or_task_specs (class_name : pyval)
    (validators : list pydict) :
  ClassValidators class_name = Ok validators →
  forallb property_or_task_spec validators = true.
Proof.
  unfold ClassValidators. intros H.
  repeat match type of H with
         | (if ?c then _ else _) = _ =>
             destruct c; [injection H as <-; reflexivity|]
         end.
  discriminate.
Qed.

(** C10: the required BadgeClass [image], the optional Profile [image] and
    the required Image [id] are specs of type [DATA_URI_OR_URL], a type that
    is neither [RDF_TYPE] nor in [PRIMITIVES]; for every class with a table,
    [_get_validation_actions] appends no action for a spec of that type, and
    no action it returns has that [prop_type]. *)
Theorem data_uri_or_url_specs_emit_no_task :
  (dict [("prop_name", PStr "image"); ("prop_type", PStr DATA_URI_OR_URL);
         ("required", PBool true)] ∈ BadgeClass_validators
   ∧ dict [("prop_name", PStr "image"); ("prop_type", PStr DATA_URI_OR_URL);
           ("required", PBool false)] ∈ Profile_validators
   ∧ dict [("prop_name", PStr "id"); ("prop_type", PStr DATA_URI_OR_URL);
           ("required", PBool true)] ∈ Image_validators)
  ∧ (PStr DATA_URI_OR_URL ≠ PStr RDF_TYPE
     ∧ py_in (PStr DATA_URI_OR_URL) (PStr <$> PRIMITIVES) = false)
  ∧ ∀ (node_id node_class : pyval) (validators : list pydict),
      ClassValidators node_class = Ok validators →
      (∀ validator, validator ∈ validators →
         get "prop_type" validator = PStr DATA_URI_OR_URL →
         validator_actions node_id node_class validator = [])
      ∧ (∀ actions action,
           _get_validation_actions node_id node_class = Ok actions →
           action ∈ actions →
           get "prop_type" action ≠ PStr DATA_URI_OR_URL).
Proof.
  split.
  { repeat split; unfold BadgeClass_validators, Profile_validators, Image_validators;
      rewrite !elem_of_cons; tauto. }
  split; [split; [discriminate | reflexivity]|].
  intros node_id node_class validators Htable.
  assert (Hnone : ∀ validator, validator ∈ validators →
            get "prop_type" validator = PStr DATA_URI_OR_URL →
            validator_actions node_id node_class validator = []).
  { intros validator Hin Htype.
    apply validator_actions_data_uri_or_url; [done|].
    pose proof (tables_hold_property_or_task_specs _ _ Htable) as Hall.
    rewrite forallb_forall in Hall. apply Hall. by apply list_elem_of_In. }
  split; [done|].
  intros actions action Hget Hin Htype.
  unfold _get_validation_actions in Hget. rewrite Htable in Hget. simpl in Hget.
  injection Hget as <-.
  apply list_elem_of_In, in_concat in Hin as (l & Hl & Hin).
  apply list_elem_of_In in Hin, Hl.
  apply list_elem_of_fmap in Hl as (validator & -> & Hv).
  rewrite (validator_actions_prop_type _ _ _ _ Hin) in Htype.
  rewrite (Hnone validator Hv Htype) in Hin. by apply elem_of_nil in Hin.
Qed.

(** ** The handlers on the sample documents *)

Lemma absent_property_outcome_witness :
  validate_property (lib := sample_library) sample_state
    (property_task "http://e/bc1" "name" TEXT true)
  = Ok (false,
        "Required property name not present in unknown type node http://e/bc1",
        [])
  ∧ validate_property (lib := sample_library) sample_state
      (property_task "http://e/bc1" "name" TEXT false)
    = Ok (true,
          "Optional property name not present in unknown type node http://e/bc1",
          []).
Proof.
  split.
  - apply (proj1 (absent_property_outcome (lib := sample_library) sample_state
                    (property_task "http://e/bc1" "name" TEXT true)
                    (dict [("id", PStr "http://e/bc1"); ("type", PStr "BadgeClass");
                           ("description", PStr "A badge")])
                    eq_refl eq_refl)).
    reflexivity.
  - apply (proj2 (absent_property_outcome (lib := sample_library) sample_state
                    (property_task "http://e/bc1" "name" TEXT false)
                    (dict [("id", PStr "http://e/bc1"); ("type", PStr "BadgeClass");
                           ("description", PStr "A badge")])
                    eq_refl eq_refl)).
    reflexivity.
Defined.

Lemma missing_type_takes_default_witness :
  validate_rdf_type_property (lib := sample_library) sample_state criteria_type_task
  = Ok (true, "Optional property type not present in Criteria criteria-id",
        [patch_node (PStr "criteria-id") [("type", PStr "Criteria")]]).
Proof.
  apply (missing_type_takes_default (lib := sample_library) sample_state
           criteria_type_task
           (dict [("id", PStr "criteria-id"); ("narrative", PStr "Do the work.")])
           "Optional property type not present in Criteria criteria-id" []);
    reflexivity.
Defined.

Lemma spaceship_is_undeclared :
  undeclared_class (dict [("id", PStr "http://e/x"); ("type", PStr "Spaceship")]).
Proof.
  intros ob_class Hin Heq. vm_compute in Heq. injection Heq as <-.
  unfold ALL_CLASSES in Hin. rewrite !elem_of_cons, elem_of_nil in Hin.
  intuition discriminate.
Qed.

Lemma undeclared_class_raises_witness :
  detect_and_validate_node_class (lib := sample_library) sample_state
    (node_task "http://e/x")
  = Raise NotImplementedError.
Proof.
  apply (undeclared_class_raises (lib := sample_library) sample_state
           (node_task "http://e/x")
           (dict [("id", PStr "http://e/x"); ("type", PStr "Spaceship")])).
  - reflexivity.
  - intros ob_class Hin Heq. vm_compute in Heq. injection Heq as <-.
    unfold ALL_CLASSES in Hin. rewrite !elem_of_cons, elem_of_nil in Hin.
    intuition discriminate.
Defined.

(** C7 as stated fails: on the sample node of type [Spaceship] the handler
    returns no outcome. *)
Lemma undeclared_class_does_not_succeed :
  get_node_by_id sample_state (get "node_id" (node_task "http://e/x"))
  = Ok (dict [("id", PStr "http://e/x"); ("type", PStr "Spaceship")])
  ∧ undeclared_class (dict [("id", PStr "http://e/x"); ("type", PStr "Spaceship")])
  ∧ ¬ ∃ message actions,
        detect_and_validate_node_class (lib := sample_library) sample_state
          (node_task "http://e/x")
        = Ok (true, message, actions).
Proof.
  split; [reflexivity|]. split; [apply spaceship_is_undeclared|].
  intros (message & actions & H). vm_compute in H. discriminate.
Qed.

Lemma timestamp_checks_read_the_clock_witness :
  assertion_timestamp_checks (lib := sample_library) 1600000000 sample_state
    (node_task "http://e/a1")
  = assertion_timestamp_checks (lib := sample_library) 1700000000 sample_state
      (node_task "http://e/a1").
Proof.
  apply (timestamp_checks_read_the_clock (lib := sample_library)).
  intros node d Hnode Hd. vm_compute in Hnode. injection Hnode as <-.
  destruct Hd as [Hd | Hd]; vm_compute in Hd; [|discriminate].
  injection Hd as <-. split; reflexivity.
Defined.

(** C5 as stated fails: on the sample Assertion, issued on 2018-01-01, the
    handler fails at a clock reading in 2017 and succeeds at one in 2020. *)
Lemma timestamp_checks_differ_with_the_clock :
  ¬ clock_independent (lib := sample_library) sample_state (node_task "http://e/a1").
Proof.
  intros H. specialize (H 1500000000 1600000000).
  vm_compute in H. discriminate.
Qed.

Lemma data_uri_or_url_specs_emit_no_task_witness :
  validator_actions (PStr "http://e/bc1") (PStr BadgeClass)
    (dict [("prop_name", PStr "image"); ("prop_type", PStr DATA_URI_OR_URL);
           ("required", PBool true)])
  = [].
Proof.
  apply (proj1 (proj2 (proj2 data_uri_or_url_specs_emit_no_task)
                  (PStr "http://e/bc1") (PStr BadgeClass) BadgeClass_validators
                  eq_refl)).
  - unfold BadgeClass_validators. rewrite !elem_of_cons. tauto.
  - reflexivity.
Defined.

(** * Further properties *)

(** ** The reducer: what a step changes *)

Lemma updated_item_length (state : list pydict) (aid : pyval) (update : pydict) :
  length (_new_state_with_updated_item state aid update) = length state.
Proof. unfold _new_state_with_updated_item. apply length_fmap. Qed.

(** X1: A step of the reducer never removes a task, and only an [ADD_TASK] adds
    one: the queue keeps its length, or the action is an [ADD_TASK] and the
    queue is one longer. *)
Theorem reducer_length (state : list pydict) (action : pydict)
    (state' : list pydict) :
  task_reducer (Some state) action = Ok state' →
  length state' = length state
  ∨ (get "type" action = PStr ADD_TASK ∧ length state' = S (length state)).
Proof.
  intros Hred. unfold task_reducer in Hred. simpl in Hred.
  destruct (task_counter state) as [counter|]; [|discriminate]. simpl in Hred.
  destruct (py_eq (get "type" action) (PStr ADD_TASK)
            && negb (_task_to_add_exists state action)) eqn:Eadd.
  { injection Hred as <-. right.
    apply andb_true_iff in Eadd as [Eadd _]. apply py_eq_str in Eadd.
    split; [done|]. rewrite length_app. simpl. lia. }
  left.
  destruct (py_eq (get "type" action) (PStr RESOLVE_TASK)).
  { apply with_task_cases in Hred
      as [-> | (task & j & tid & aid & _ & _ & Ha & _ & Hred)]; [done|].
    rewrite (getitem_Some _ _ _ Ha) in Hred. simpl in Hred. injection Hred as <-.
    apply updated_item_length. }
  destruct (py_eq (get "type" action) (PStr UPDATE_TASK)).
  { apply with_task_cases in Hred
      as [-> | (task & j & tid & aid & _ & _ & Ha & _ & Hred)]; [done|].
    rewrite (getitem_Some _ _ _ Ha) in Hred. simpl in Hred. injection Hred as <-.
    apply updated_item_length. }
  by injection Hred as <-.
Qed.

Lemma reducer_length_witness :
  ∃ state',
    task_reducer (Some sample_queue) (resolve_action 2) = Ok state'
    ∧ (length state' = length sample_queue
       ∨ (get "type" (resolve_action 2) = PStr ADD_TASK
          ∧ length state' = S (length sample_queue))).
Proof.
  eexists. split; [reflexivity|].
  apply (reducer_length sample_queue (resolve_action 2)). reflexivity.
Defined.

Lemma distinct_ids_key (state : list pydict) (i : nat) (t : pydict) :
  distinct_ids state → state !! i = Some t →
  ∃ n, t !! "task_id" = Some (PInt n).
Proof.
  intros (ids & _ & Hids) Hi.
  assert (Hi' : (get "task_id" <$> state) !! i = Some (get "task_id" t))
    by by rewrite list_lookup_fmap, Hi.
  rewrite Hids, list_lookup_fmap in Hi'.
  destruct (ids !! i) as [n|]; [|discriminate].
  simpl in Hi'. injection Hi' as Hi'. exists n.
  unfold get in Hi'. destruct (t !! "task_id"); simpl in Hi'; by subst.
Qed.

Lemma distinct_ids_counter (state : list pydict) :
  distinct_ids state → counter_defined state.
Proof.
  intros Hd. unfold counter_defined, task_counter.
  destruct (last state) as [t|] eqn:Hl; [|by eexists].
  rewrite last_lookup in Hl.
  destruct (distinct_ids_key _ _ _ Hd Hl) as [n Hn].
  rewrite (getitem_Some _ _ _ Hn). by eexists.
Qed.

Lemma tasks_with_id_total (state : list pydict) (action : pydict) (aid : pyval) :
  distinct_ids state → action !! "task_id" = Some aid →
  ∃ found, tasks_with_id state action = Ok found.
Proof.
  intros Hd Ha.
  assert (Hkeys : ∀ i t, state !! i = Some t → ∃ n, t !! "task_id" = Some (PInt n))
    by (intros; by eapply distinct_ids_key).
  clear Hd. induction state as [|t rest IH]; [by eexists|].
  destruct (Hkeys 0%nat t eq_refl) as [n Hn].
  destruct IH as [found Hf]; [intros i t' Hi; by apply (Hkeys (S i))|].
  simpl. rewrite (getitem_Some _ _ _ Hn), (getitem_Some _ _ _ Ha). simpl.
  rewrite Hf. simpl. by eexists.
Qed.

Lemma tasks_with_id_elem (state : list pydict) (action : pydict)
    (found : list pydict) (j : nat) (task : pydict) (tid aid : pyval) :
  tasks_with_id state action = Ok found →
  state !! j = Some task → task !! "task_id" = Some tid →
  action !! "task_id" = Some aid → py_eq tid aid = true →
  task ∈ found.
Proof.
  intros Hf Hj Ht Ha Heq. revert j found Hf Hj.
  induction state as [|t rest IH]; intros j found Hf Hj; [done|].
  simpl in Hf. unfold getitem in Hf.
  destruct (t !! "task_id") as [tid0|] eqn:Ht0; [|discriminate].
  rewrite Ha in Hf. simpl in Hf.
  destruct (tasks_with_id rest action) as [found'|]; [|discriminate].
  simpl in Hf. injection Hf as <-.
  destruct j as [|j]; simpl in Hj.
  - injection Hj as ->. rewrite Ht in Ht0. injection Ht0 as <-.
    rewrite Heq. left.
  - specialize (IH j found' eq_refl Hj).
    destruct (py_eq tid0 aid); [by right | done].
Qed.

Lemma py_eq_int_back (n m : Z) (aid : pyval) :
  py_eq (PInt n) aid = true → py_eq aid (PInt m) = Z.eqb n m.
Proof.
  destruct aid as [|b|k| | | |]; simpl; try discriminate; intros H.
  - apply Z.eqb_eq in H. subst n. destruct b; simpl; destruct m; try done;
      destruct p; done.
  - apply Z.eqb_eq in H. by subst.
Qed.

Lemma first_task_addressed (state : list pydict) (action : pydict)
    (aid : pyval) (j : nat) (task : pydict) :
  distinct_ids state → action !! "task_id" = Some aid →
  state !! j = Some task → py_eq (get "task_id" task) aid = true →
  (found ← tasks_with_id state action; index0 found) = Ok task.
Proof.
  intros Hd Ha Hj Heq.
  destruct (tasks_with_id_total _ _ _ Hd Ha) as [found Hf]. rewrite Hf. simpl.
  destruct (distinct_ids_key _ _ _ Hd Hj) as [n Hn].
  rewrite (get_of_lookup _ _ _ Hn) in Heq.
  pose proof (tasks_with_id_elem _ _ _ _ _ _ _ Hf Hj Hn Ha Heq) as Hin.
  destruct found as [|task' rest]; [by apply elem_of_nil in Hin|]. simpl.
  destruct (tasks_with_id_first _ _ _ task' Hf eq_refl)
    as (j' & tid' & aid' & Hj' & Ht' & Ha' & Heq').
  rewrite Ha in Ha'. injection Ha' as <-.
  destruct (distinct_ids_key _ _ _ Hd Hj') as [m Hm].
  rewrite Hm in Ht'. injection Ht' as <-.
  assert (j' = j) as ->.
  { eapply (distinct_ids_lookup state j' j task' task aid); try done.
    - by rewrite (get_of_lookup _ _ _ Hm).
    - rewrite (get_of_lookup _ _ _ Hn), (py_eq_int_back _ n _ Heq).
      apply Z.eqb_refl. }
  rewrite Hj in Hj'. by injection Hj' as ->.
Qed.

Lemma updated_item_insert (state : list pydict) (aid : pyval)
    (update task : pydict) (j : nat) :
  distinct_ids state → state !! j = Some task →
  py_eq (get "task_id" task) aid = true →
  _new_state_with_updated_item state aid update = <[j := update]> state.
Proof.
  intros Hd Hj Heq. apply list_eq. intros i.
  rewrite updated_item_lookup.
  destruct (distinct_ids_key _ _ _ Hd Hj) as [n Hn].
  rewrite (get_of_lookup _ _ _ Hn) in Heq.
  destruct (decide (i = j)) as [->|Hne].
  - rewrite list_lookup_insert_eq; [|by eapply lookup_lt_Some].
    rewrite Hj. simpl. rewrite (get_of_lookup _ _ _ Hn).
    by rewrite (py_eq_int_back _ n _ Heq), Z.eqb_refl.
  - rewrite list_lookup_insert_ne; [|done].
    destruct (state !! i) as [t|] eqn:Hi; [|done]. simpl.
    destruct (distinct_ids_key _ _ _ Hd Hi) as [m Hm].
    rewrite (get_of_lookup _ _ _ Hm), (py_eq_int_back _ m _ Heq).
    destruct (Z.eqb n m) eqn:E; [|done].
    apply Z.eqb_eq in E. subst m. exfalso. apply Hne.
    eapply (distinct_ids_lookup state i j t task (PInt n)); try done.
    + rewrite (get_of_lookup _ _ _ Hm). simpl. apply Z.eqb_refl.
    + rewrite (get_of_lookup _ _ _ Hn). simpl. apply Z.eqb_refl.
Qed.

(** X2: On a queue whose task ids are distinct integers, a [RESOLVE_TASK] or
    [UPDATE_TASK] that names the id of the task at position [j] replaces
    that task and no other: [RESOLVE_TASK] by the task with [complete =
    True] and the action's [success] and [result], [UPDATE_TASK] by the
    task with the payload keys other than [type] and [task_id] written
    over it. *)
Theorem addressed_task_replaced (state : list pydict) (action : pydict)
    (aid : pyval) (j : nat) (task : pydict) :
  distinct_ids state → action !! "task_id" = Some aid →
  state !! j = Some task → py_eq (get "task_id" task) aid = true →
  (get "type" action = PStr RESOLVE_TASK →
   task_reducer (Some state) action
   = Ok (<[j := resolve_update task action]> state)) ∧
  (get "type" action = PStr UPDATE_TASK →
   task_reducer (Some state) action
   = Ok (<[j := update_update task action]> state)).
Proof.
  intros Hd Ha Hj Heq.
  destruct (distinct_ids_counter _ Hd) as [counter Hc].
  split; intros Htype; unfold task_reducer; simpl; rewrite Hc; simpl;
    rewrite Htype; simpl; unfold with_task;
    rewrite (first_task_addressed _ _ _ _ _ Hd Ha Hj Heq);
    rewrite (getitem_Some _ _ _ Ha); simpl;
    by rewrite (updated_item_insert _ _ _ _ _ Hd Hj Heq).
Qed.

Lemma addressed_task_replaced_witness :
  task_reducer (Some sample_queue) (resolve_action 1)
  = Ok (<[0%nat := resolve_update
                     (sample_task 1 false VALIDATE_PROPERTY "http://e/bc1" "name")
                     (resolve_action 1)]> sample_queue).
Proof.
  apply (proj1 (addressed_task_replaced sample_queue (resolve_action 1)
                  (PInt 1) 0%nat
                  (sample_task 1 false VALIDATE_PROPERTY "http://e/bc1" "name")
                  ltac:(exists [1; 2]; split; [|reflexivity];
                        repeat constructor;
                        rewrite ?elem_of_cons, ?elem_of_nil; intuition lia)
                  eq_refl eq_refl eq_refl)).
  reflexivity.
Defined.

Lemma update_update_task_id (task action : pydict) :
  update_update task action !! "task_id" = task !! "task_id".
Proof.
  unfold update_update. apply lookup_union_r.
  rewrite lookup_delete_ne; [|done]. apply lookup_delete_eq.
Qed.

Lemma resolve_update_get (task action : pydict) (k : string) :
  k ≠ "complete" → k ≠ "success" → k ≠ "result" →
  get k (resolve_update task action) = get k task.
Proof.
  intros ? ? ?. unfold get, resolve_update.
  by rewrite !lookup_insert_ne.
Qed.

(** X3: On a queue whose task ids are distinct integers, [RESOLVE_TASK] and
    [UPDATE_TASK] leave the task id of every position as it was, whatever
    the payload carries; the ids stay distinct. *)
Theorem task_ids_preserved (state : list pydict) (action : pydict)
    (state' : list pydict) :
  distinct_ids state →
  get "type" action = PStr RESOLVE_TASK ∨ get "type" action = PStr UPDATE_TASK →
  task_reducer (Some state) action = Ok state' →
  get "task_id" <$> state' = get "task_id" <$> state ∧ distinct_ids state'.
Proof.
  intros Hd Htype Hred.
  assert (Hids : get "task_id" <$> state' = get "task_id" <$> state).
  { unfold task_reducer in Hred. simpl in Hred.
    destruct (task_counter state) as [counter|]; [|discriminate]. simpl in Hred.
    assert (Hrep : ∀ (update : pydict → pydict),
              (∀ task, get "task_id" (update task) = get "task_id" task) →
              with_task state action (λ task,
                aid ← getitem "task_id" action;
                Ok (_new_state_with_updated_item state aid (update task)))
              = Ok state' →
              get "task_id" <$> state' = get "task_id" <$> state).
    { intros update Hupd Hwith.
      apply with_task_cases in Hwith
        as [-> | (task & j & tid & aid & Hj & Ht & Ha & Heq & Hk)]; [done|].
      rewrite (getitem_Some _ _ _ Ha) in Hk. simpl in Hk. injection Hk as <-.
      rewrite <- (get_of_lookup _ _ _ Ht) in Heq.
      rewrite (updated_item_insert _ _ _ _ _ Hd Hj Heq).
      rewrite list_fmap_insert, Hupd. apply list_insert_id.
      by rewrite list_lookup_fmap, Hj. }
    destruct Htype as [Htype | Htype]; rewrite Htype in Hred; simpl in Hred.
    - apply (Hrep (λ task, resolve_update task action)); [|done].
      intros task. by apply resolve_update_get.
    - apply (Hrep (λ task, update_update task action)); [|done].
      intros task. unfold get. by rewrite update_update_task_id. }
  split; [done|].
  destruct Hd as (ids & Hnd & Hd). exists ids. split; [done|]. by rewrite Hids.
Qed.

Lemma task_ids_preserved_witness :
  ∃ state',
    task_reducer (Some sample_queue) (update_action 1 "task_id" (PInt 9))
    = Ok state'
    ∧ get "task_id" <$> state' = get "task_id" <$> sample_queue
    ∧ distinct_ids state'.
Proof.
  eexists. split; [reflexivity|].
  apply (task_ids_preserved sample_queue (update_action 1 "task_id" (PInt 9))).
  - exists [1; 2]. split; [|reflexivity].
    repeat constructor; rewrite ?elem_of_cons, ?elem_of_nil; intuition lia.
  - by right.
  - reflexivity.
Defined.



(** X5: The reducer reads [state[-1]['task_id']] before it looks at the action:
    when the last task of the queue has no [task_id] every action raises
    [KeyError], and when its [task_id] is not a number every action raises
    [TypeError], an action of an unknown type included. *)
Theorem counter_is_read_first (state : list pydict) (t : pydict)
    (action : pydict) :
  last state = Some t →
  (t !! "task_id" = None →
   task_reducer (Some state) action = Raise KeyError) ∧
  (∀ v, t !! "task_id" = Some v → py_add_int v 1 = Raise TypeError →
   task_reducer (Some state) action = Raise TypeError).
Proof.
  intros Hl. split.
  - intros Ht. unfold task_reducer, task_counter, getitem. simpl.
    by rewrite Hl, Ht.
  - intros v Ht Hv. unfold task_reducer, task_counter, getitem. simpl.
    rewrite Hl, Ht. simpl. by rewrite Hv.
Qed.

Lemma counter_is_read_first_witness :
  task_reducer (Some [dict [("name", PStr FETCH_HTTP_NODE)]])
    (dict [("type", PStr "PATCH_NODE")])
  = Raise KeyError
  ∧ task_reducer (Some [dict [("task_id", PStr "7")]])
      (dict [("type", PStr "PATCH_NODE")])
    = Raise TypeError.
Proof.
  split.
  - apply (proj1 (counter_is_read_first
                    [dict [("name", PStr FETCH_HTTP_NODE)]]
                    (dict [("name", PStr FETCH_HTTP_NODE)])
                    (dict [("type", PStr "PATCH_NODE")]) eq_refl)).
    reflexivity.
  - apply (proj2 (counter_is_read_first
                    [dict [("task_id", PStr "7")]]
                    (dict [("task_id", PStr "7")])
                    (dict [("type", PStr "PATCH_NODE")]) eq_refl)
             (PStr "7")); reflexivity.
Defined.

Lemma new_task_copies (counter : pyval) (action : pydict) (k : string)
    (v : pyval) :
  k ≠ "type" → action !! k = Some v → new_task counter action !! k = Some v.
Proof.
  intros Hk Ha. unfold new_task. apply lookup_union_Some_l.
  by rewrite lookup_delete_ne.
Qed.

Lemma new_task_no_type (counter : pyval) (action : pydict) :
  new_task counter action !! "type" = None.
Proof.
  unfold new_task. apply lookup_union_None. split; [apply lookup_delete_eq|].
  rewrite lookup_insert_ne; [|done]. by rewrite lookup_singleton_ne.
Qed.

(** X6: On the empty queue, and on no queue at all, an [ADD_TASK] is never a
    duplicate: the result is a queue of one task, which holds every key of
    the payload with its value and no [type]. *)
Theorem add_task_on_empty_queue (action : pydict) :
  is_add_task action →
  ∃ t, task_reducer None action = Ok [t]
       ∧ task_reducer (Some []) action = Ok [t]
       ∧ t !! "type" = None
       ∧ ∀ k v, k ≠ "type" → action !! k = Some v → t !! k = Some v.
Proof.
  intros Hadd. exists (new_task (PInt 1) action).
  assert (Hnone : _task_to_add_exists [] action = false).
  { unfold _task_to_add_exists. simpl.
    by repeat destruct (py_eq _ _). }
  unfold is_add_task in Hadd.
  repeat split.
  - unfold task_reducer. simpl. by rewrite Hadd, Hnone.
  - unfold task_reducer. simpl. by rewrite Hadd, Hnone.
  - apply new_task_no_type.
  - intros k v. apply new_task_copies.
Qed.

Lemma add_task_on_empty_queue_witness :
  ∃ t, task_reducer None add_with_task_id = Ok [t]
       ∧ task_reducer (Some []) add_with_task_id = Ok [t]
       ∧ t !! "type" = None
       ∧ ∀ k v, k ≠ "type" → add_with_task_id !! k = Some v → t !! k = Some v.
Proof.
  apply (add_task_on_empty_queue add_with_task_id). reflexivity.
Defined.

(** ** The reducer: the queue the engine builds *)

Lemma numbered_distinct (state : list pydict) :
  numbered_from_1 state → distinct_ids state.
Proof.
  intros Hn. exists (Z.of_nat <$> seq 1 (length state)). split.
  - apply NoDup_fmap; [apply _ | apply NoDup_seq].
  - rewrite Hn, <- list_fmap_compose. reflexivity.
Qed.

Lemma new_task_get (counter : pyval) (action : pydict) (k : string) :
  k ≠ "type" → k ≠ "task_id" → k ≠ "complete" →
  get k (new_task counter action) = get k action.
Proof.
  intros ? ? ?. unfold get.
  destruct (action !! k) as [v|] eqn:Ha.
  - by rewrite (new_task_copies _ _ _ _ ltac:(done) Ha).
  - by rewrite new_task_lacks.
Qed.

Lemma not_duplicate_of (state : list pydict) (action t : pydict) :
  _task_to_add_exists state action = false → t ∈ state →
  (get "name" action = PStr VALIDATE_EXPECTED_NODE_CLASS →
   same_name_and_node action t = false) ∧
  (get "name" action = PStr VALIDATE_PROPERTY
   ∨ get "name" action = PStr VALIDATE_RDF_TYPE_PROPERTY →
   same_node_and_prop action t = false).
Proof.
  intros Hnot Hin.
  assert (Hdup : ¬ is_duplicate state action).
  { intros H. apply task_to_add_exists_iff in H. congruence. }
  split; intros Hname.
  - destruct (same_name_and_node action t) eqn:E; [|done].
    exfalso. apply Hdup. left. split; [done|]. exists t.
    unfold same_name_and_node in E. apply andb_true_iff in E as [? ?]. done.
  - destruct (same_node_and_prop action t) eqn:E; [|done].
    exfalso. apply Hdup. right. split; [done|]. exists t.
    unfold same_node_and_prop in E. apply andb_true_iff in E as [? ?]. done.
Qed.

Lemma no_earlier_duplicate_snoc (state : list pydict) (counter : pyval)
    (action : pydict) :
  no_earlier_duplicate state →
  _task_to_add_exists state action = false →
  no_earlier_duplicate (state ++ [new_task counter action]).
Proof.
  intros Hinv Hnot i j ti tj Hlt Hi Hj.
  destruct (decide (j < length state)%nat) as [Hjs | Hjs].
  - rewrite lookup_app_l in Hi, Hj; [|lia..]. by apply (Hinv i j).
  - assert (j = length state) as ->.
    { apply lookup_lt_Some in Hj. rewrite length_app in Hj. simpl in Hj. lia. }
    rewrite lookup_app_l in Hi; [|done].
    rewrite lookup_app_r, Nat.sub_diag in Hj; [|done]. injection Hj as <-.
    assert (Hin : ti ∈ state) by (apply list_elem_of_lookup; eauto).
    destruct (not_duplicate_of _ _ _ Hnot Hin) as [Hclass Hprop].
    unfold same_name_and_node, same_node_and_prop in *.
    rewrite !new_task_get by done. done.
Qed.

Lemma no_earlier_duplicate_resolved (state : list pydict) (j0 : nat)
    (task action : pydict) :
  no_earlier_duplicate state → state !! j0 = Some task →
  no_earlier_duplicate (<[j0 := resolve_update task action]> state).
Proof.
  intros Hinv Hj0.
  assert (Hsame : ∀ i t', <[j0 := resolve_update task action]> state !! i = Some t' →
            ∃ t, state !! i = Some t ∧
              ∀ k, k ≠ "complete" → k ≠ "success" → k ≠ "result" →
                get k t' = get k t).
  { intros i t' Hi. destruct (decide (i = j0)) as [->|Hne].
    - rewrite list_lookup_insert_eq in Hi; [|by eapply lookup_lt_Some].
      injection Hi as <-. exists task. split; [done|].
      intros k. apply resolve_update_get.
    - rewrite list_lookup_insert_ne in Hi; [|done]. by exists t'. }
  intros i j ti' tj' Hlt Hi Hj.
  destruct (Hsame i ti' Hi) as (ti & Hti & Ei).
  destruct (Hsame j tj' Hj) as (tj & Htj & Ej).
  destruct (Hinv i j ti tj Hlt Hti Htj) as [Hclass Hprop].
  unfold same_name_and_node, same_node_and_prop.
  rewrite !Ei, !Ej by done. done.
Qed.

Lemma engine_step (state : list pydict) (action : pydict) (state' : list pydict) :
  numbered_from_1 state → no_earlier_duplicate state → engine_action action →
  task_reducer (Some state) action = Ok state' →
  numbered_from_1 state' ∧ no_earlier_duplicate state'.
Proof.
  intros Hn Hinv Hact Hred.
  unfold task_reducer in Hred. simpl in Hred.
  rewrite (task_counter_numbered _ Hn) in Hred. simpl in Hred.
  destruct Hact as [(Hadd & Hid & Hc) | Hres].
  - unfold is_add_task in Hadd. rewrite Hadd in Hred. simpl in Hred.
    destruct (_task_to_add_exists state action) eqn:Hex; simpl in Hred;
      injection Hred as <-; [done|].
    split.
    + apply numbered_snoc; [done|]. by apply new_task_lookup_id.
    + by apply no_earlier_duplicate_snoc.
  - rewrite Hres in Hred. simpl in Hred.
    apply with_task_cases in Hred
      as [-> | (task & j & tid & aid & Hj & Ht & Ha & Heq & Hk)]; [done|].
    rewrite (getitem_Some _ _ _ Ha) in Hk. simpl in Hk. injection Hk as <-.
    rewrite <- (get_of_lookup _ _ _ Ht) in Heq.
    rewrite (updated_item_insert _ _ _ _ _ (numbered_distinct _ Hn) Hj Heq).
    split; [|by apply no_earlier_duplicate_resolved].
    unfold numbered_from_1 in *.
    rewrite list_fmap_insert, length_insert, <- Hn.
    rewrite resolve_update_get by done.
    apply list_insert_id. by rewrite list_lookup_fmap, Hj.
Qed.

(** X7: Whenever a run of plain [ADD_TASK] and [RESOLVE_TASK] actions from the
    empty queue returns, the task ids of the queue are 1, 2, 3, ... and the
    queue holds no duplicate: no [VALIDATE_EXPECTED_NODE_CLASS] task has an
    earlier task with its [name] and [node_id], no [VALIDATE_PROPERTY] or
    [VALIDATE_RDF_TYPE_PROPERTY] task an earlier task with its [node_id]
    and [prop_name]. *)
Theorem engine_queue_has_no_duplicates (actions : list pydict)
    (final : list pydict) :
  Forall engine_action actions → run [] actions = Ok final →
  numbered_from_1 final ∧ no_earlier_duplicate final.
Proof.
  intros Hall.
  assert (Hgen : ∀ state, numbered_from_1 state → no_earlier_duplicate state →
            run state actions = Ok final →
            numbered_from_1 final ∧ no_earlier_duplicate final).
  { induction Hall as [|a rest Ha _ IH]; intros state Hn Hinv Hrun.
    - simpl in Hrun. by injection Hrun as <-.
    - simpl in Hrun.
      destruct (task_reducer (Some state) a) as [state'|] eqn:Hstep;
        [|discriminate].
      simpl in Hrun.
      destruct (engine_step _ _ _ Hn Hinv Ha Hstep) as [Hn' Hinv'].
      by apply (IH state'). }
  apply Hgen; [reflexivity|].
  intros i j ti tj _ Hi. done.
Qed.

Lemma engine_queue_has_no_duplicates_witness :
  ∃ final,
    run [] [ sample_add VALIDATE_PROPERTY "http://e/bc1" "name";
             resolve_action 1;
             sample_add VALIDATE_RDF_TYPE_PROPERTY "http://e/bc1" "name";
             sample_add VALIDATE_PROPERTY "http://e/bc1" "description" ]
    = Ok final
    ∧ length final = 2%nat
    ∧ numbered_from_1 final ∧ no_earlier_duplicate final.
Proof.
  eexists. split; [reflexivity|]. split; [reflexivity|].
  eapply (engine_queue_has_no_duplicates
            [ sample_add VALIDATE_PROPERTY "http://e/bc1" "name";
              resolve_action 1;
              sample_add VALIDATE_RDF_TYPE_PROPERTY "http://e/bc1" "name";
              sample_add VALIDATE_PROPERTY "http://e/bc1" "description" ]).
  - repeat constructor; by right.
  - reflexivity.
Defined.

(** ** [validate_property]: values and follow-up actions *)

Section MoreHandlerProperties.
Context `{lib : Library}.

(** X8: A property that is present but holds [null], an empty list or a list of
    [null]s: a required one fails as not acceptable, an optional one
    succeeds as null; the values are not type-checked and no action is
    returned. *)
Theorem null_property_outcome (state : engine_state) (task_meta node : pydict)
    (prop_value : pyval) :
  get_node_by_id state (get "node_id" task_meta) = Ok node →
  getitem_val (get "prop_name" task_meta) node = Ok prop_value →
  (let values := match prop_value with PList l => l | _ => [prop_value] end in
   is_empty_list values || is_null_list values = true) →
  let where_ :=
    fmt (get_or "node_class" (PStr "unknown type node") task_meta)
    +:+ " " +:+ fmt (get "node_id" task_meta) in
  (py_truthy (get "required" task_meta) = true →
   validate_property state task_meta
   = Ok (false,
         "Required property " +:+ fmt (get "prop_name" task_meta) +:+ " value "
         +:+ abbreviate_value prop_value +:+ " is not acceptable in "
         +:+ where_, [])) ∧
  (py_truthy (get "required" task_meta) = false →
   validate_property state task_meta
   = Ok (true,
         "Optional property " +:+ fmt (get "prop_name" task_meta)
         +:+ " is null in " +:+ where_, [])).
Proof.
  intros Hnode Hval Hnull where_. simpl in Hnull.
  split; intros Hreq; unfold validate_property;
    rewrite Hnode; simpl; rewrite Hval, Hreq, Hnull; reflexivity.
Qed.

(** X9: A property with more than one value that is not declared [many] fails,
    before any value is type-checked. *)
Theorem single_value_enforced (state : engine_state) (task_meta node : pydict)
    (values : list pyval) :
  get_node_by_id state (get "node_id" task_meta) = Ok node →
  getitem_val (get "prop_name" task_meta) node = Ok (PList values) →
  is_null_list values = false → (1 < length values)%nat →
  py_truthy (get "many" task_meta) = false →
  validate_property state task_meta
  = Ok (false,
        "Property " +:+ fmt (get "prop_name" task_meta) +:+ " in "
        +:+ fmt (get_or "node_class" (PStr "unknown type node") task_meta)
        +:+ " " +:+ fmt (get "node_id" task_meta)
        +:+ " has more than the single allowed value.", []).
Proof.
  intros Hnode Hval Hnull Hlen Hmany. unfold validate_property.
  rewrite Hnode. simpl. rewrite Hval, Hnull, Hmany.
  assert (He : is_empty_list values = false) by (destruct values; [simpl in Hlen; lia | done]).
  rewrite He. apply Nat.ltb_lt in Hlen. rewrite Hlen.
  rewrite !orb_false_r, !andb_false_r. reflexivity.
Qed.

Lemma get_node_by_id_raises (state : engine_state) (node_id : pyval) (e : exn) :
  get_node_by_id state node_id = Raise e → e = IndexError.
Proof.
  unfold get_node_by_id. destruct (filter _ _); simpl; congruence.
Qed.

Lemma check_id_values_actions (state : engine_state) (task_meta : pydict)
    (node_id : pyval) (values : list pyval) (actions : list pydict) :
  check_id_values state task_meta node_id values = Ok actions →
  Forall (λ a,
    get "type" a = PStr ADD_TASK ∧
    get "expected_class" a = get "expected_class" task_meta ∧
    ((get "name" a = PStr VALIDATE_EXPECTED_NODE_CLASS ∧
      get "node_id" a ∈ values ∧
      ∃ target, get_node_by_id state (get "node_id" a) = Ok target)
     ∨ (get "name" a = PStr FETCH_HTTP_NODE ∧ get "url" a ∈ values))) actions.
Proof.
  revert actions. induction values as [|val rest IH]; intros actions Hc.
  - simpl in Hc. injection Hc as <-. constructor.
  - assert (Hrest : ∀ acts, check_id_values state task_meta node_id rest = Ok acts →
              Forall (λ a,
                get "type" a = PStr ADD_TASK ∧
                get "expected_class" a = get "expected_class" task_meta ∧
                ((get "name" a = PStr VALIDATE_EXPECTED_NODE_CLASS ∧
                  get "node_id" a ∈ val :: rest ∧
                  ∃ target, get_node_by_id state (get "node_id" a) = Ok target)
                 ∨ (get "name" a = PStr FETCH_HTTP_NODE
                    ∧ get "url" a ∈ val :: rest))) acts).
    { intros acts Hacts. eapply Forall_impl; [by apply IH|].
      intros a (? & ? & [(? & ? & ?) | (? & ?)]); repeat split; try done;
        [left | right]; repeat split; try done; by right. }
    simpl in Hc. destruct (negb (is_iri val)); [discriminate|].
    destruct (negb (py_truthy (get_or "fetch" (PBool false) task_meta))).
    + destruct (get_node_by_id state val) as [target|e] eqn:Hnode.
      * destruct (check_id_values state task_meta node_id rest) as [more|];
          [|discriminate].
        simpl in Hc. injection Hc as <-. constructor; [|by apply Hrest].
        repeat split; [left]. repeat split; [left | by exists target].
      * destruct e; try discriminate.
        destruct (acceptable_remote_url task_meta val) as [[|]|];
          try discriminate. by apply Hrest.
    + destruct (check_id_values state task_meta node_id rest) as [more|];
        [|discriminate].
      simpl in Hc. injection Hc as <-. constructor; [|by apply Hrest].
      repeat split; right. split; [done | left].
Qed.

(** X10: What [validate_property] queues: a failed check returns no action, a
    check of a type other than [ID] returns none either, and every action
    returned is an [ADD_TASK] of kind [VALIDATE_EXPECTED_NODE_CLASS] for a
    node that is in the NodeStore, or of kind [FETCH_HTTP_NODE], with the
    [expected_class] of the task. *)
Theorem property_check_actions (state : engine_state) (task_meta : pydict)
    (success : bool) (message : string) (actions : list pydict) :
  validate_property state task_meta = Ok (success, message, actions) →
  (success = false → actions = []) ∧
  (py_eq (get "prop_type" task_meta) (PStr ID) = false → actions = []) ∧
  Forall (λ a,
    get "type" a = PStr ADD_TASK ∧
    get "expected_class" a = get "expected_class" task_meta ∧
    ((get "name" a = PStr VALIDATE_EXPECTED_NODE_CLASS ∧
      ∃ target, get_node_by_id state (get "node_id" a) = Ok target)
     ∨ get "name" a = PStr FETCH_HTTP_NODE)) actions.
Proof.
  unfold validate_property. intros H.
  destruct (get_node_by_id state (get "node_id" task_meta)) as [node|];
    [|discriminate].
  simpl in H.
  destruct (getitem_val (get "prop_name" task_meta) node) as [prop_value|e].
  2:{ destruct e; try discriminate.
      destruct (negb _); injection H as <- <- <-; by repeat split. }
  repeat match type of H with
         | (if ?c then _ else _) = _ =>
             destruct c eqn:?; [injection H as <- <- <-; by repeat split|]
         end.
  destruct (negb (py_eq (get "prop_type" task_meta) (PStr ID))) eqn:Eid.
  - destruct (check_primitive_values _ _ _ _) as [[]|e]; simpl in H.
    + injection H as <- <- <-. by repeat split.
    + destruct e; try discriminate. injection H as <- <- <-. by repeat split.
  - destruct (check_id_values _ _ _ _) as [acts|e] eqn:Hc.
    + injection H as <- <- <-. split; [done|]. split.
      * intros Hid. rewrite Hid in Eid. discriminate.
      * eapply Forall_impl; [by eapply check_id_values_actions|].
        intros a (? & ? & [(? & ? & ?) | (? & ?)]); repeat split; try done;
          [by left | by right].
    + destruct e; try discriminate. injection H as <- <- <-. by repeat split.
Qed.

(** ** [validate_rdf_type_property] over [validate_property] *)

(** X11: The type check adds to the property check and never overrides it: a
    failure or an exception of [validate_property] is returned as it is,
    and a success of the type check is a success of the property check with
    the same message. *)
Theorem rdf_type_check_extends_property_check (state : engine_state)
    (task_meta : pydict) :
  (∀ message actions,
     validate_property state task_meta = Ok (false, message, actions) →
     validate_rdf_type_property state task_meta = Ok (false, message, actions)) ∧
  (∀ e, validate_property state task_meta = Raise e →
        validate_rdf_type_property state task_meta = Raise e) ∧
  (∀ message actions,
     validate_rdf_type_property state task_meta = Ok (true, message, actions) →
     ∃ actions', validate_property state task_meta = Ok (true, message, actions')).
Proof.
  unfold validate_rdf_type_property. split; [|split].
  - intros message actions ->. reflexivity.
  - intros e ->. reflexivity.
  - intros message actions H.
    destruct (validate_property state task_meta) as [[[success m] acts]|];
      [|discriminate].
    simpl in H. destruct success; simpl in H; [|discriminate].
    exists acts. do 3 f_equal.
    destruct (get_node_by_id state (get "node_id" task_meta)); [|discriminate].
    simpl in H.
    destruct (negb _ && _); [by injection H as <- _|].
    destruct (py_truthy _); [|by injection H as <- _].
    destruct (any_in _ _) as [[|]|]; try discriminate. by injection H as <- _.
Qed.

Lemma any_in_list (values allowed : list pyval) :
  any_in values (PList allowed) = Ok (existsb (λ val, py_in val allowed) values).
Proof.
  induction values as [|val rest IH]; [done|].
  simpl. destruct (py_in val allowed); [done|]. apply IH.
Qed.

(** X12: With a list [must_contain_one] that is not empty and a node whose [type]
    is set, a type check whose property check succeeded succeeds exactly
    when one of the node's types is in the list: it returns the outcome of
    the property check then, a failure without actions otherwise. *)
Theorem type_must_be_among_allowed (state : engine_state)
    (task_meta node : pydict) (message : string) (actions : list pydict)
    (allowed : list pyval) :
  validate_property state task_meta = Ok (true, message, actions) →
  get_node_by_id state (get "node_id" task_meta) = Ok node →
  py_truthy (get "type" node) = true →
  get "must_contain_one" task_meta = PList allowed → allowed ≠ [] →
  let types :=
    match get "type" node with PList l => l | _ => [get "type" node] end in
  validate_rdf_type_property state task_meta
  = if existsb (λ t, py_in t allowed) types
    then Ok (true, message, actions)
    else Ok (false,
             "Node " +:+ fmt (get "node_id" task_meta) +:+ " of type "
             +:+ abbreviate_value (get "type" node)
             +:+ " does not have type among allowed values ("
             +:+ abbreviate_value (PList allowed) +:+ ")", []).
Proof.
  intros Hprop Hnode Htype Hmust Hne types. unfold validate_rdf_type_property.
  rewrite Hprop. simpl. rewrite Hnode. simpl. rewrite Htype, Hmust. simpl.
  destruct allowed as [|a0 allowed']; [done|].
  rewrite any_in_list. reflexivity.
Qed.

End MoreHandlerProperties.

Lemma null_property_outcome_witness :
  validate_property (lib := sample_library)
    {| graph := [dict [("id", PStr "_:b3"); ("name", PList [PNone; PNone])]];
       tasks := [] |}
    (property_task "_:b3" "name" TEXT true)
  = Ok (false,
        "Required property name value [...] is not acceptable in unknown type node _:b3",
        []).
Proof.
  apply (proj1 (null_property_outcome (lib := sample_library)
                  {| graph := [dict [("id", PStr "_:b3");
                                     ("name", PList [PNone; PNone])]];
                     tasks := [] |}
                  (property_task "_:b3" "name" TEXT true)
                  (dict [("id", PStr "_:b3"); ("name", PList [PNone; PNone])])
                  (PList [PNone; PNone]) eq_refl eq_refl eq_refl)).
  reflexivity.
Defined.

Lemma single_value_enforced_witness :
  validate_property (lib := sample_library)
    {| graph := [dict [("id", PStr "_:b3");
                       ("name", PList [PStr "a"; PInt 5])]];
       tasks := [] |}
    (property_task "_:b3" "name" TEXT true)
  = Ok (false,
        "Property name in unknown type node _:b3 has more than the single allowed value.",
        []).
Proof.
  apply (single_value_enforced (lib := sample_library)
           {| graph := [dict [("id", PStr "_:b3");
                              ("name", PList [PStr "a"; PInt 5])]];
              tasks := [] |}
           (property_task "_:b3" "name" TEXT true)
           (dict [("id", PStr "_:b3"); ("name", PList [PStr "a"; PInt 5])])
           [PStr "a"; PInt 5]); try reflexivity.
  simpl. lia.
Defined.

Lemma property_check_actions_witness :
  ∃ message actions,
    validate_property (lib := sample_library) award_state recipient_task
    = Ok (true, message, actions)
    ∧ length actions = 1%nat
    ∧ Forall (λ a,
        get "type" a = PStr ADD_TASK ∧
        get "expected_class" a = get "expected_class" recipient_task ∧
        ((get "name" a = PStr VALIDATE_EXPECTED_NODE_CLASS ∧
          ∃ target, get_node_by_id award_state (get "node_id" a) = Ok target)
         ∨ get "name" a = PStr FETCH_HTTP_NODE)) actions.
Proof.
  do 2 eexists. split; [reflexivity|]. split; [reflexivity|].
  eapply (proj2 (proj2 (property_check_actions (lib := sample_library)
                          award_state recipient_task true _ _ eq_refl))).
Defined.

Lemma rdf_type_check_extends_property_check_witness :
  ∃ actions',
    validate_property (lib := sample_library) sample_state criteria_type_task
    = Ok (true, "Optional property type not present in Criteria criteria-id",
          actions').
Proof.
  eapply (proj2 (proj2 (rdf_type_check_extends_property_check
                          (lib := sample_library) sample_state
                          criteria_type_task))).
  reflexivity.
Defined.

Lemma type_must_be_among_allowed_witness :
  ∃ message,
    validate_rdf_type_property (lib := sample_library) award_state
      assertion_type_task
    = Ok (true, message, []).
Proof.
  eexists.
  apply (type_must_be_among_allowed (lib := sample_library) award_state
           assertion_type_task
           (dict [("id", PStr "http://e/a1"); ("type", PStr "Assertion");
                  ("recipient", PStr "_:b0"); ("verification", PStr "_:b1");
                  ("issuedOn", PStr "2018-01-01T00:00:00Z");
                  ("expires", PStr "2019-01-01T00:00:00Z")])
           _ [] [PStr "Assertion"]); try reflexivity.
  discriminate.
Defined.

(** ** The class validator tables: the tasks queued for a node *)

Lemma add_task_header (name : pyval) (kwargs : pydict) :
  kwargs !! "type" = None → kwargs !! "name" = None →
  get "type" (add_task name kwargs) = PStr ADD_TASK
  ∧ get "name" (add_task name kwargs) = name.
Proof.
  intros Ht Hn. unfold get, add_task. split.
  - rewrite lookup_union_r; [|done]. by rewrite lookup_insert_eq.
  - rewrite lookup_union_r; [|done].
    rewrite lookup_insert_ne; [|done]. by rewrite lookup_singleton_eq.
Qed.

Lemma add_task_kwarg (name : pyval) (kwargs : pydict) (k : string) (v : pyval) :
  kwargs !! k = Some v → get k (add_task name kwargs) = v.
Proof.
  intros Hk. unfold get, add_task.
  by rewrite (lookup_union_Some_l _ _ _ _ Hk).
Qed.

Lemma tables_keep_action_header (class_name : pyval) (validators : list pydict) :
  ClassValidators class_name = Ok validators →
  forallb spec_keeps_action_header validators = true.
Proof.
  unfold ClassValidators. intros H.
  repeat match type of H with
         | (if ?c then _ else _) = _ =>
             destruct c; [injection H as <-; reflexivity|]
         end.
  discriminate.
Qed.

Lemma py_in_strings (v : pyval) (l : list string) :
  py_in v (PStr <$> l) = true → ∃ s, s ∈ l ∧ v = PStr s.
Proof.
  unfold py_in. rewrite existsb_exists. intros (x & Hin & Heq).
  apply list_elem_of_In, list_elem_of_fmap in Hin as (s & -> & Hs).
  apply py_eq_str in Heq. by exists s.
Qed.

(** X13: Every action [_get_validation_actions] returns is an [ADD_TASK] for the
    node and class it was called with, of kind
    [VALIDATE_RDF_TYPE_PROPERTY], [VALIDATE_PROPERTY] or one of the class
    validation tasks. *)
Theorem validation_actions_are_tasks_for_the_node (node_id node_class : pyval)
    (actions : list pydict) :
  _get_validation_actions node_id node_class = Ok actions →
  Forall (λ a,
    get "type" a = PStr ADD_TASK ∧ get "node_id" a = node_id
    ∧ get "node_class" a = node_class
    ∧ (get "name" a = PStr VALIDATE_RDF_TYPE_PROPERTY
       ∨ get "name" a = PStr VALIDATE_PROPERTY
       ∨ ∃ kind, kind ∈ CLASS_VALIDATION_TASKS ∧ get "name" a = PStr kind))
    actions.
Proof.
  unfold _get_validation_actions. intros H.
  destruct (ClassValidators node_class) as [validators|] eqn:Htable;
    [|discriminate].
  simpl in H. injection H as <-.
  pose proof (tables_keep_action_header _ _ Htable) as Hall.
  rewrite forallb_forall in Hall.
  apply Forall_forall. intros a Hin.
  apply list_elem_of_In, in_concat in Hin as (l & Hl & Hin).
  apply list_elem_of_In in Hin, Hl.
  apply list_elem_of_fmap in Hl as (validator & -> & Hv).
  apply list_elem_of_In, Hall in Hv. unfold spec_keeps_action_header in Hv.
  destruct (validator !! "type") eqn:Ht; [discriminate|].
  destruct (validator !! "name") eqn:Hn; [discriminate|].
  assert (Hshape : ∀ name,
            get "type" (add_task name (task_kwargs node_id node_class validator))
            = PStr ADD_TASK
            ∧ get "node_id" (add_task name (task_kwargs node_id node_class validator))
              = node_id
            ∧ get "node_class" (add_task name (task_kwargs node_id node_class validator))
              = node_class
            ∧ get "name" (add_task name (task_kwargs node_id node_class validator))
              = name).
  { intros name. unfold task_kwargs.
    destruct (add_task_header name
                (<["node_id" := node_id]> (<["node_class" := node_class]> validator)))
      as [? ?]; [by rewrite !lookup_insert_ne..|].
    repeat split; [done| | |done]; apply add_task_kwarg.
    - apply lookup_insert_eq.
    - rewrite lookup_insert_ne; [|done]. apply lookup_insert_eq. }
  unfold validator_actions in Hin. apply elem_of_app in Hin as [Hin | Hin].
  - destruct (py_eq _ _); [|by apply elem_of_nil in Hin].
    apply list_elem_of_singleton in Hin as ->.
    destruct (Hshape (PStr VALIDATE_RDF_TYPE_PROPERTY)) as (? & ? & ? & ?).
    repeat split; try done. by left.
  - destruct (py_in _ (PStr <$> PRIMITIVES)).
    + apply list_elem_of_singleton in Hin as ->.
      destruct (Hshape (PStr VALIDATE_PROPERTY)) as (? & ? & ? & ?).
      repeat split; try done. right. by left.
    + destruct (py_in _ _) eqn:Hkind; [|by apply elem_of_nil in Hin].
      apply list_elem_of_singleton in Hin as ->.
      destruct (Hshape (get "task_type" validator)) as (? & ? & ? & Hname).
      repeat split; try done. right. right.
      apply py_in_strings in Hkind as (kind & ? & Hk).
      exists kind. split; [done|]. by rewrite Hname.
Qed.

Lemma validation_actions_are_tasks_for_the_node_witness :
  ∃ actions,
    _get_validation_actions (PStr "criteria-id") (PStr Criteria) = Ok actions
    ∧ length actions = 4%nat
    ∧ Forall (λ a,
        get "type" a = PStr ADD_TASK ∧ get "node_id" a = PStr "criteria-id"
        ∧ get "node_class" a = PStr Criteria
        ∧ (get "name" a = PStr VALIDATE_RDF_TYPE_PROPERTY
           ∨ get "name" a = PStr VALIDATE_PROPERTY
           ∨ ∃ kind, kind ∈ CLASS_VALIDATION_TASKS ∧ get "name" a = PStr kind))
        actions.
Proof.
  eexists. split; [reflexivity|]. split; [reflexivity|].
  apply (validation_actions_are_tasks_for_the_node
           (PStr "criteria-id") (PStr Criteria)).
  reflexivity.
Defined.

(** ** The node class tasks: classes with and without a table *)

Lemma detect_node_class_member (c : string) :
  c ∈ ALL_CLASSES → detect_node_class (PStr c) = PStr c.
Proof.
  intros Hin. unfold detect_node_class.
  destruct (List.find _ ALL_CLASSES) as [x|] eqn:Hfind.
  - apply List.find_some in Hfind as [_ Heq]. simpl in Heq.
    apply String.eqb_eq in Heq. by subst.
  - apply list_elem_of_In in Hin.
    pose proof (List.find_none _ _ Hfind c Hin) as Hne. simpl in Hne.
    by rewrite String.eqb_refl in Hne.
Qed.

Section ClassTaskProperties.
Context `{lib : Library}.

(** X14: Four members of [OBClasses.ALL_CLASSES] have no table in
    [ClassValidators]: for a node that declares [CryptographicKey],
    [Extension], [RevocationList] or [VerificationObject],
    [detect_and_validate_node_class] recognises the class and then raises
    [NotImplementedError].  For a node that declares any other member it
    succeeds and queues at least one task. *)
Theorem declared_class_without_table (state : engine_state)
    (task_meta node : pydict) (c : string) :
  get_node_by_id state (get "node_id" task_meta) = Ok node →
  get "type" node = PStr c → c ∈ ALL_CLASSES →
  (c ∈ classes_without_table →
   detect_and_validate_node_class state task_meta = Raise NotImplementedError) ∧
  (c ∉ classes_without_table →
   ∃ actions,
     actions ≠ [] ∧
     detect_and_validate_node_class state task_meta
     = Ok (true,
           "Declared type on node " +:+ fmt (get "node_id" task_meta)
           +:+ " is " +:+ fmt (PStr c), actions)).
Proof.
  intros Hnode Htype Hin. unfold detect_and_validate_node_class.
  rewrite Hnode. simpl. rewrite Htype, (detect_node_class_member _ Hin).
  unfold ALL_CLASSES, classes_without_table in *.
  rewrite !elem_of_cons, elem_of_nil in *.
  split; intros Hc.
  - destruct Hc as [-> | [-> | [-> | [-> | []]]]]; reflexivity.
  - destruct Hin as [-> | [-> | [-> | [-> | [-> | [-> | [-> | [-> | [-> |
      [-> | [-> | [-> | []]]]]]]]]]]]];
      try (exfalso; apply Hc; tauto);
      (eexists; split; [|reflexivity]; discriminate).
Qed.

(** X15: When the class a task expects of a node is the class the node declares,
    a member of [OBClasses.ALL_CLASSES], [validate_expected_node_class] and
    [detect_and_validate_node_class] queue the same tasks. *)
Theorem expected_and_detected_class_agree (state : engine_state)
    (task_meta node : pydict) (c : string) :
  get_node_by_id state (get "node_id" task_meta) = Ok node →
  get "type" node = PStr c → c ∈ ALL_CLASSES →
  get "expected_class" task_meta = PStr c →
  ∀ actions,
    (∃ message, detect_and_validate_node_class state task_meta
                = Ok (true, message, actions))
    ↔ (∃ message, validate_expected_node_class state task_meta
                  = Ok (true, message, actions)).
Proof.
  intros Hnode Htype Hin Hexp actions.
  unfold detect_and_validate_node_class, validate_expected_node_class.
  rewrite Hnode. simpl.
  rewrite Htype, Hexp, (detect_node_class_member _ Hin).
  destruct (_get_validation_actions (get "node_id" task_meta) (PStr c))
    as [acts|]; simpl.
  - split; intros [message H]; injection H as _ ->; by eexists.
  - split; intros [message H]; discriminate.
Qed.

End ClassTaskProperties.

Lemma declared_class_without_table_witness :
  detect_and_validate_node_class (lib := sample_library) award_state
    (node_task "http://e/k1")
  = Raise NotImplementedError.
Proof.
  apply (proj1 (declared_class_without_table (lib := sample_library) award_state
                  (node_task "http://e/k1")
                  (dict [("id", PStr "http://e/k1");
                         ("type", PStr CryptographicKey)])
                  CryptographicKey eq_refl eq_refl
                  ltac:(unfold ALL_CLASSES; rewrite !elem_of_cons; tauto))).
  unfold classes_without_table. rewrite !elem_of_cons. tauto.
Defined.

Lemma expected_and_detected_class_agree_witness :
  ∃ actions,
    (∃ message, detect_and_validate_node_class (lib := sample_library)
                  sample_state (expected_class_task "http://e/bc1" BadgeClass)
                = Ok (true, message, actions))
    ∧ (∃ message, validate_expected_node_class (lib := sample_library)
                    sample_state (expected_class_task "http://e/bc1" BadgeClass)
                  = Ok (true, message, actions)).
Proof.
  eexists.
  assert (Hdetect : ∃ message,
            detect_and_validate_node_class (lib := sample_library)
              sample_state (expected_class_task "http://e/bc1" BadgeClass)
            = Ok (true, message, _)) by (eexists; reflexivity).
  split; [exact Hdetect|].
  apply (expected_and_detected_class_agree (lib := sample_library)
           sample_state (expected_class_task "http://e/bc1" BadgeClass)
           (dict [("id", PStr "http://e/bc1"); ("type", PStr "BadgeClass");
                  ("description", PStr "A badge")])
           BadgeClass eq_refl eq_refl
           ltac:(unfold ALL_CLASSES; rewrite !elem_of_cons; tauto)
           eq_refl).
  exact Hdetect.
Defined.

(** ** The class validation tasks *)

Section ClassValidationProperties.
Context `{lib : Library}.

(** X16: When [identity_object_property_dependencies] succeeds, the identity is
    a string and the truth of [hashed] agrees with its form: [hashed] is
    true exactly when the identity matches one of the two hash patterns. *)
Theorem identity_success_means_flag_agrees (state : engine_state)
    (task_meta node : pydict) (message : string) (actions : list pydict) :
  get_node_by_id state (get "node_id" task_meta) = Ok node →
  identity_object_property_dependencies state task_meta
  = Ok (true, message, actions) →
  actions = [] ∧
  ∃ s, get "identity" node = PStr s
       ∧ py_truthy (get "hashed" node)
         = (re_match "md5\$[\da-fA-F]{32}$" s
            || re_match "sha256\$[\da-fA-F]{64}$" s).
Proof.
  intros Hnode H. unfold identity_object_property_dependencies in H.
  rewrite Hnode in H. simpl in H.
  destruct (get "identity" node) as [| | |s| | |]; try discriminate.
  simpl in H.
  destruct (py_truthy (get "hashed" node));
    destruct (re_match "md5\$[\da-fA-F]{32}$" s
              || re_match "sha256\$[\da-fA-F]{64}$" s) eqn:Ehash;
    simpl in H; try discriminate.
  - injection H as _ <-. split; [done|]. exists s. by rewrite Ehash.
  - destruct (py_in_val (PStr "email") (get "type" node)) as [email|];
      [|discriminate].
    simpl in H. destruct (email && _); [discriminate|].
    injection H as _ <-. split; [done|]. exists s. by rewrite Ehash.
Qed.

(** X17: An IdentityObject whose [identity] is missing or is not a string makes
    the task raise [TypeError], whatever [hashed] and [type] are. *)
Theorem identity_must_be_a_string (state : engine_state)
    (task_meta node : pydict) :
  get_node_by_id state (get "node_id" task_meta) = Ok node →
  is_string (get "identity" node) = false →
  identity_object_property_dependencies state task_meta = Raise TypeError.
Proof.
  intros Hnode Hid. unfold identity_object_property_dependencies.
  rewrite Hnode. simpl.
  by destruct (get "identity" node).
Qed.

(** X18: [criteria_property_dependencies] fails in one case only, a blank-node
    id without narrative, and never returns an action. *)
Theorem criteria_outcome (state : engine_state) (task_meta node : pydict)
    (s : string) :
  get_node_by_id state (get "node_id" task_meta) = Ok node →
  get "node_id" task_meta = PStr s →
  ∃ message,
    criteria_property_dependencies state task_meta
    = Ok (negb (re_match "_:b\d+$" s && negb (py_truthy (get "narrative" node))),
          message, []).
Proof.
  intros Hnode Hid. unfold criteria_property_dependencies.
  rewrite Hnode. simpl. rewrite Hid.
  destruct (re_match "_:b\d+$" s); destruct (py_truthy (get "narrative" node));
    simpl; by eexists.
Qed.

(** X19: [assertion_verification_dependencies] never reports a failed check: it
    raises [TaskPrerequisitesError], or it succeeds, with one
    [HOSTED_ID_IN_VERIFICATION_SCOPE] task for the assertion when the
    verification node is of type [HostedBadge] and with no action
    otherwise. *)
Theorem verification_dependencies_outcome (state : engine_state)
    (task_meta : pydict) :
  assertion_verification_dependencies state task_meta
  = Raise TaskPrerequisitesError
  ∨ ∃ assertion_id assertion node message,
      task_meta !! "node_id" = Some assertion_id
      ∧ get_node_by_id state assertion_id = Ok assertion
      ∧ get_node_by_id state (get "verification" assertion) = Ok node
      ∧ assertion_verification_dependencies state task_meta
        = Ok (true, message,
              if py_eq (get "type" node) (PStr "HostedBadge")
              then [add_task (PStr HOSTED_ID_IN_VERIFICATION_SCOPE)
                      {["node_id" := assertion_id]}]
              else []).
Proof.
  unfold assertion_verification_dependencies, getitem.
  destruct (task_meta !! "node_id") as [assertion_id|] eqn:Hid; [|by left].
  simpl.
  destruct (get_node_by_id state assertion_id) as [assertion|e] eqn:Ha.
  2:{ apply get_node_by_id_raises in Ha as ->. by left. }
  simpl. unfold get.
  destruct (assertion !! "verification") as [node_id|] eqn:Hv; [|by left].
  simpl.
  destruct (get_node_by_id state node_id) as [node|e] eqn:Hn.
  2:{ apply get_node_by_id_raises in Hn as ->. by left. }
  simpl. right. exists assertion_id, assertion, node. eexists.
  split; [done|]. split; [done|]. split; [by rewrite Hv | reflexivity].
Qed.

(** X20: With an [issuedOn] that parses to an aware datetime,
    [assertion_timestamp_checks] succeeds exactly when the assertion is not
    issued after the clock reading and, if it has an [expires] (parsed to
    an aware datetime too), [expires] is neither before [issuedOn] nor
    before the clock reading.  It returns no action. *)
Theorem timestamp_checks_outcome (now : Z) (state : engine_state)
    (task_meta assertion : pydict) (node_id issued : pyval)
    (issued_on : datetime) :
  task_meta !! "node_id" = Some node_id →
  get_node_by_id state node_id = Ok assertion →
  assertion !! "issuedOn" = Some issued →
  parse_datetime issued = Ok issued_on → aware issued_on = true →
  (py_truthy (get "expires" assertion) = false →
   ∃ message,
     assertion_timestamp_checks now state task_meta
     = Ok (negb (Z.ltb now (instant issued_on)), message, [])) ∧
  (∀ expires,
     py_truthy (get "expires" assertion) = true →
     parse_datetime (get "expires" assertion) = Ok expires →
     aware expires = true →
     ∃ message,
       assertion_timestamp_checks now state task_meta
       = Ok (negb (Z.ltb now (instant issued_on))
             && negb (Z.ltb (instant expires) (instant issued_on))
             && negb (Z.ltb (instant expires) now), message, [])).
Proof.
  intros Hid Hnode Hissued Hparse Haware.
  unfold assertion_timestamp_checks, getitem.
  rewrite Hid. simpl. rewrite Hnode. simpl. rewrite Hissued. simpl.
  rewrite Hparse. simpl. unfold dt_lt. simpl. rewrite Haware. simpl.
  split.
  - intros Hexp. rewrite Hexp.
    destruct (Z.ltb now (instant issued_on)); simpl; by eexists.
  - intros expires Hexp Hpe Hae. rewrite Hexp, Hpe. simpl. rewrite Hae. simpl.
    destruct (Z.ltb now (instant issued_on)); simpl; [by eexists|].
    destruct (Z.ltb (instant expires) (instant issued_on)); simpl; [by eexists|].
    destruct (Z.ltb (instant expires) now); simpl; by eexists.
Qed.

(** X21: The two timestamps are not treated alike: an [issuedOn] the parser
    rejects with [ValueError] makes the task raise
    [TaskPrerequisitesError], while an [expires] the parser rejects makes
    it raise the parser's own exception, once [issuedOn] has passed its
    check. *)
Theorem unparseable_timestamps (now : Z) (state : engine_state)
    (task_meta assertion : pydict) (node_id issued : pyval) :
  task_meta !! "node_id" = Some node_id →
  get_node_by_id state node_id = Ok assertion →
  assertion !! "issuedOn" = Some issued →
  (parse_datetime issued = Raise ValueError →
   assertion_timestamp_checks now state task_meta
   = Raise TaskPrerequisitesError) ∧
  (∀ issued_on e,
     parse_datetime issued = Ok issued_on → aware issued_on = true →
     Z.ltb now (instant issued_on) = false →
     py_truthy (get "expires" assertion) = true →
     parse_datetime (get "expires" assertion) = Raise e →
     assertion_timestamp_checks now state task_meta = Raise e).
Proof.
  intros Hid Hnode Hissued.
  unfold assertion_timestamp_checks, getitem.
  rewrite Hid. simpl. rewrite Hnode. simpl. rewrite Hissued. simpl.
  split.
  - intros ->. reflexivity.
  - intros issued_on e -> Haware Hpast Hexp Hpe. simpl.
    unfold dt_lt. simpl. rewrite Haware. simpl. rewrite Hpast, Hexp, Hpe.
    reflexivity.
Qed.

(** ** The primitive value validator *)

(** X22: For [BOOLEAN], [DATETIME], [IDENTITY_HASH] and [TEXT] the validator
    returns a boolean for every value and raises nothing, whatever the
    datetime parser does.  For [TEXT] and [IDENTITY_HASH] the boolean says
    whether the value is a string, for [BOOLEAN] whether it is a boolean;
    a value is a valid [DATETIME] exactly when the parser accepts it and it
    is a string that ends in [Z] or matches the pattern of a UTC offset. *)
Theorem primitive_validators_return_booleans (value : pyval) :
  (∀ t, t ∈ [BOOLEAN; DATETIME; IDENTITY_HASH; TEXT] →
        ∃ b, PrimitiveValueValidator (PStr t) value = Ok (PBool b)) ∧
  PrimitiveValueValidator (PStr TEXT) value = Ok (PBool (is_string value)) ∧
  PrimitiveValueValidator (PStr IDENTITY_HASH) value
  = Ok (PBool (is_string value)) ∧
  PrimitiveValueValidator (PStr BOOLEAN) value = Ok (PBool (is_bool value)) ∧
  (PrimitiveValueValidator (PStr DATETIME) value = Ok (PBool true)
   ↔ ∃ s d, value = PStr s ∧ parse_datetime value = Ok d
            ∧ (ends_with_Z s = true
               ∨ re_match ".*[+-](?:\d{4}|\d{2}|\d{2}:\d{2})$" s = true)).
Proof.
  split; [|split; [done|]; split; [done|]; split; [done|]].
  - intros t Ht. rewrite !elem_of_cons, elem_of_nil in Ht.
    destruct Ht as [-> | [-> | [-> | [-> | []]]]]; try (by eexists).
    simpl. unfold _validate_datetime.
    destruct (parse_datetime value); [|by eexists].
    destruct value; by eexists.
  - simpl. unfold _validate_datetime. split.
    + intros H. destruct (parse_datetime value) as [d|] eqn:Hd; [|discriminate].
      destruct value as [| | |s| | |]; try discriminate.
      injection H as H. apply orb_true_iff in H.
      exists s, d. split; [done|]. split; [done | exact H].
    + intros (s & d & -> & Hd & Hz). rewrite Hd.
      do 2 f_equal. by apply orb_true_iff.
Qed.

(** X23: A value is a valid [DATA_URI_OR_URL] exactly when [is_url] accepts it,
    or it is a non-empty string that the URI parser accepts and the data
    URI pattern matches; a value [is_url] accepts is valid without the URI
    parser being consulted. *)
Theorem data_uri_or_url_valid (value : pyval) :
  (is_url value = true →
   PrimitiveValueValidator (PStr DATA_URI_OR_URL) value = Ok (PBool true)) ∧
  (PrimitiveValueValidator (PStr DATA_URI_OR_URL) value = Ok (PBool true)
   ↔ is_url value = true
     ∨ ∃ s, value = PStr s ∧ s ≠ ""
            ∧ rfc3986_is_valid_uri s = Ok true
            ∧ re_match_ignorecase data_uri_regex s = true).
Proof.
  simpl. unfold _validate_data_uri_or_url, _validate_url. simpl.
  split; [by intros ->|].
  destruct (is_url value); [by split; [left|]|].
  unfold _validate_data_uri. split.
  - intros H. right.
    destruct value as [| | |s| | |]; simpl in H; try discriminate.
    destruct (String.eqb s "") eqn:Es; simpl in H; [discriminate|].
    apply String.eqb_neq in Es.
    destruct (rfc3986_is_valid_uri s) as [[|]|e] eqn:Hv; simpl in H;
      try discriminate.
    + destruct (re_match_ignorecase data_uri_regex s) eqn:Er; simpl in H;
        [|discriminate].
      exists s. by rewrite Hv.
    + destruct e; simpl in H; discriminate.
  - intros [? | (s & -> & Hs & Hv & Hr)]; [done|].
    simpl. apply String.eqb_neq in Hs. rewrite Hs. simpl.
    by rewrite Hv, Hr.
Qed.

End ClassValidationProperties.

(** ** The class validation tasks on the sample documents *)

Lemma identity_success_means_flag_agrees_witness :
  ∃ s, get "identity" (dict [("id", PStr "_:b0"); ("type", PStr "url");
                             ("identity", PStr "http://e/me");
                             ("hashed", PBool false)]) = PStr s
       ∧ false = (re_match (Library := sample_library) "md5\$[\da-fA-F]{32}$" s
                  || re_match (Library := sample_library)
                       "sha256\$[\da-fA-F]{64}$" s).
Proof.
  apply (proj2 (identity_success_means_flag_agrees (lib := sample_library)
                  award_state (node_task "_:b0")
                  (dict [("id", PStr "_:b0"); ("type", PStr "url");
                         ("identity", PStr "http://e/me");
                         ("hashed", PBool false)])
                  "IdentityObject passes validation rules." []
                  eq_refl eq_refl)).
Defined.

Lemma identity_must_be_a_string_witness :
  identity_object_property_dependencies (lib := sample_library) award_state
    (node_task "_:b4")
  = Raise TypeError.
Proof.
  apply (identity_must_be_a_string (lib := sample_library) award_state
           (node_task "_:b4")
           (dict [("id", PStr "_:b4"); ("type", PStr "url");
                  ("identity", PInt 5); ("hashed", PBool false)]));
    reflexivity.
Defined.

Lemma criteria_outcome_witness :
  ∃ message,
    criteria_property_dependencies (lib := sample_library) sample_state
      (node_task "criteria-id")
    = Ok (true, message, []).
Proof.
  apply (criteria_outcome (lib := sample_library) sample_state
           (node_task "criteria-id")
           (dict [("id", PStr "criteria-id"); ("narrative", PStr "Do the work.")])
           "criteria-id"); reflexivity.
Defined.

Lemma timestamp_checks_outcome_witness :
  ∃ message,
    assertion_timestamp_checks (lib := sample_library) 1530000000 award_state
      (node_task "http://e/a1")
    = Ok (true, message, []).
Proof.
  apply (proj2 (timestamp_checks_outcome (lib := sample_library) 1530000000
                  award_state (node_task "http://e/a1")
                  (dict [("id", PStr "http://e/a1"); ("type", PStr "Assertion");
                         ("recipient", PStr "_:b0"); ("verification", PStr "_:b1");
                         ("issuedOn", PStr "2018-01-01T00:00:00Z");
                         ("expires", PStr "2019-01-01T00:00:00Z")])
                  (PStr "http://e/a1") (PStr "2018-01-01T00:00:00Z")
                  {| instant := 1514764800; aware := true |}
                  eq_refl eq_refl eq_refl eq_refl eq_refl)
           {| instant := 1546300800; aware := true |});
    reflexivity.
Defined.

Lemma unparseable_timestamps_witness :
  assertion_timestamp_checks (lib := sample_library) 1530000000
    {| graph := [dict [("id", PStr "http://e/a2");
                       ("issuedOn", PStr "2018-01-01T00:00:00Z");
                       ("expires", PStr "next year")]];
       tasks := [] |}
    (node_task "http://e/a2")
  = Raise ValueError.
Proof.
  apply (proj2 (unparseable_timestamps (lib := sample_library) 1530000000
                  {| graph := [dict [("id", PStr "http://e/a2");
                                     ("issuedOn", PStr "2018-01-01T00:00:00Z");
                                     ("expires", PStr "next year")]];
                     tasks := [] |}
                  (node_task "http://e/a2")
                  (dict [("id", PStr "http://e/a2");
                         ("issuedOn", PStr "2018-01-01T00:00:00Z");
                         ("expires", PStr "next year")])
                  (PStr "http://e/a2") (PStr "2018-01-01T00:00:00Z")
                  eq_refl eq_refl eq_refl)
           {| instant := 1514764800; aware := true |} ValueError);
    reflexivity.
Defined.

Lemma primitive_validators_return_booleans_witness :
  ∃ b, PrimitiveValueValidator (lib := sample_library) (PStr DATETIME)
         (PStr "2018-01-01T00:00:00Z")
       = Ok (PBool b).
Proof.
  apply (proj1 (primitive_validators_return_booleans (lib := sample_library)
                  (PStr "2018-01-01T00:00:00Z")) DATETIME).
  rewrite !elem_of_cons. tauto.
Defined.

Lemma data_uri_or_url_valid_witness :
  PrimitiveValueValidator (lib := sample_library) (PStr DATA_URI_OR_URL)
    (PStr "http://e/img.png")
  = Ok (PBool true).
Proof.
  apply (proj1 (data_uri_or_url_valid (lib := sample_library)
                  (PStr "http://e/img.png"))).
  reflexivity.
Defined.

(** ** The extension task *)

Section ExtensionProperties.
Context `{lib : Library} `{ext : ExtensionLibrary}.

(** X24: A task with no true [node_id] and no [node_path], and a task whose node
    has no [type], cannot run: [validate_extension_node] raises
    [TaskPrerequisitesError], whether or not [type_to_test] is given. *)
Theorem extension_prerequisites_missing (state : engine_state)
    (task_meta : pydict) :
  (py_truthy (get "node_id" task_meta) = false →
   task_meta !! "node_path" = None →
   validate_extension_node state task_meta = Raise TaskPrerequisitesError) ∧
  (∀ node,
     py_truthy (get "node_id" task_meta) = true →
     get_node_by_id state (get "node_id" task_meta) = Ok node →
     node !! "type" = None →
     validate_extension_node state task_meta = Raise TaskPrerequisitesError) ∧
  (py_truthy (get "node_id" task_meta) = true →
   get_node_by_id state (get "node_id" task_meta) = Raise IndexError →
   validate_extension_node state task_meta = Raise TaskPrerequisitesError).
Proof.
  unfold validate_extension_node, extension_prerequisites, getitem.
  split; [|split].
  - intros -> ->. reflexivity.
  - intros node Hid Hnode Htype. rewrite Hid.
    unfold get in *. destruct (task_meta !! "node_id"); [|discriminate].
    simpl in *. rewrite Hnode. simpl. rewrite Htype. reflexivity.
  - intros Hid Hnode. rewrite Hid.
    unfold get in *. destruct (task_meta !! "node_id"); [|discriminate].
    simpl in *. rewrite Hnode. reflexivity.
Qed.

(** X25: Without [type_to_test], the extension types tested are the registered
    types the node declares, in the order of the registry: with none of
    them the task fails, with two or more it succeeds and returns one
    [VALIDATE_EXTENSION_NODE] task per type, each with the node id, the
    serialized node and the type to test. *)
Theorem extension_types_dispatched (state : engine_state)
    (task_meta node : pydict) (node_type : list pyval) :
  py_truthy (get "node_id" task_meta) = true →
  get_node_by_id state (get "node_id" task_meta) = Ok node →
  list_of (get "type" node) = Ok node_type → is_Some (node !! "type") →
  task_meta !! "type_to_test" = None →
  let declared :=
    List.filter (λ t, py_in (PStr t) node_type) known_extension_types in
  (declared = [] →
   validate_extension_node state task_meta
   = Ok (false, "Could not determine extension type to test", [])) ∧
  ((1 < length declared)%nat →
   ∃ message,
     validate_extension_node state task_meta
     = Ok (true, message,
           (λ t, extension_task (get "node_id" task_meta)
                   (get "node_json" task_meta) (PStr t)) <$> declared)).
Proof.
  intros Hid Hnode Hlist [declared_type Htype] Hnone declared.
  unfold validate_extension_node, extension_prerequisites, getitem.
  rewrite Hid. unfold get in *.
  destruct (task_meta !! "node_id") as [node_id|]; [|discriminate].
  simpl in *. rewrite Hnode. simpl. rewrite Htype in *. simpl in *.
  rewrite Hlist. simpl. rewrite Hnone. fold declared.
  split.
  - intros ->. reflexivity.
  - intros Hlen. destruct declared as [|t1 [|t2 rest]]; simpl in Hlen; try lia.
    eexists. simpl. rewrite <- list_fmap_compose. reflexivity.
Qed.

(** X26: Each task [validate_extension_node] returns for a node with several
    extension types validates one extension when it is handled in turn: on
    the task the reducer stores for it, the handler is
    [_validate_single_extension] on the same node, for that type. *)
Theorem extension_task_validates_one_type (state : engine_state)
    (node : pydict) (node_id node_json : pyval) (t : string)
    (node_type : list pyval) (counter : pyval) :
  py_truthy node_id = true →
  get_node_by_id state node_id = Ok node →
  is_Some (node !! "type") → list_of (get "type" node) = Ok node_type →
  validate_extension_node state
    (new_task counter (extension_task node_id node_json (PStr t)))
  = _validate_single_extension node (PStr t) node_json.
Proof.
  intros Hid Hnode [declared Htype] Hlist.
  assert (Hpayload : ∀ k v,
            (<["node_id" := node_id]>
               (<["node_json" := node_json]> {["type_to_test" := PStr t]})
             : pydict) !! k = Some v →
            k ≠ "type" →
            new_task counter (extension_task node_id node_json (PStr t)) !! k
            = Some v).
  { intros k v Hk Hne. apply new_task_copies; [done|].
    unfold extension_task, add_task. by apply lookup_union_Some_l. }
  pose proof (Hpayload "node_id" node_id (lookup_insert_eq _ _ _) ltac:(done))
    as H1.
  pose proof (Hpayload "node_json" node_json
                ltac:(by rewrite lookup_insert_ne, lookup_insert_eq) ltac:(done))
    as H2.
  pose proof (Hpayload "type_to_test" (PStr t)
                ltac:(by rewrite !lookup_insert_ne, ?lookup_singleton_eq)
                ltac:(done)) as H3.
  unfold validate_extension_node, extension_prerequisites, getitem, get.
  rewrite H1, H2, H3. simpl. rewrite Hid, Hnode. simpl.
  rewrite Htype. simpl. unfold get in Hlist. rewrite Htype in Hlist.
  simpl in Hlist. rewrite Hlist. reflexivity.
Qed.

End ExtensionProperties.

Lemma extension_prerequisites_missing_witness :
  validate_extension_node (lib := sample_library) (ext := sample_extensions)
    extended_state (node_task "http://e/bc3")
  = Raise TaskPrerequisitesError.
Proof.
  apply (proj1 (proj2 (extension_prerequisites_missing (lib := sample_library)
                         (ext := sample_extensions) extended_state
                         (node_task "http://e/bc3")))
           (dict [("id", PStr "http://e/bc3")])); reflexivity.
Defined.

Lemma extension_types_dispatched_witness :
  ∃ message,
    validate_extension_node (lib := sample_library) (ext := sample_extensions)
      extended_state (node_task "http://e/bc2")
    = Ok (true, message,
          [ extension_task (PStr "http://e/bc2") PNone
              (PStr "extensions:ApplyLink");
            extension_task (PStr "http://e/bc2") PNone
              (PStr "extensions:ExampleExtension") ]).
Proof.
  apply (proj2 (extension_types_dispatched (lib := sample_library)
                  (ext := sample_extensions) extended_state
                  (node_task "http://e/bc2")
                  (dict [("id", PStr "http://e/bc2");
                         ("type", PList [PStr "BadgeClass";
                                         PStr "extensions:ExampleExtension";
                                         PStr "extensions:ApplyLink"])])
                  [PStr "BadgeClass"; PStr "extensions:ExampleExtension";
                   PStr "extensions:ApplyLink"]
                  eq_refl eq_refl eq_refl (mk_is_Some _ _ eq_refl) eq_refl)).
  simpl. lia.
Defined.

Lemma extension_task_validates_one_type_witness :
  validate_extension_node (lib := sample_library) (ext := sample_extensions)
    extended_state
    (new_task (PInt 4)
       (extension_task (PStr "http://e/bc2") PNone (PStr "extensions:ApplyLink")))
  = Ok (true, "Extension extensions:ApplyLink validated on node http://e/bc2", []).
Proof.
  apply (extension_task_validates_one_type (lib := sample_library)
           (ext := sample_extensions) extended_state
           (dict [("id", PStr "http://e/bc2");
                  ("type", PList [PStr "BadgeClass";
                                  PStr "extensions:ExampleExtension";
                                  PStr "extensions:ApplyLink"])])
           (PStr "http://e/bc2") PNone "extensions:ApplyLink"
           [PStr "BadgeClass"; PStr "extensions:ExampleExtension";
            PStr "extensions:ApplyLink"] (PInt 4)
           eq_refl eq_refl (mk_is_Some _ _ eq_refl) eq_refl).
Defined.
